(** * OpenVR-SpaceCalibrator: the calibration engine of [Calibration.cpp]

    A shallow embedding of the sample model, the two calibrators, the sample
    acquisition gate and the tick-driven state machine, followed by the
    properties the specification states about them.

    The C++ type [double] is kept abstract behind the class [Scalar]: the
    program text is embedded once, over any scalar, and read at two
    instances.  [float_Scalar] is IEEE binary64 (Rocq's primitive floats):
    it is what the compiled program computes, NaN included, and it
    evaluates.  [R_Scalar] is the real numbers: rounding is not modelled
    there, and it is where statements of exact geometry (a norm equal to
    one, a time difference of 60ms) are made. *)

From Stdlib Require Import Floats.
From Stdlib Require Uint63.
From Stdlib Require Import ZArith List String Ascii Bool Lia DecimalString.
From Stdlib Require Import Reals Lra.
Import ListNotations.

Set Implicit Arguments.

(** ** The scalar type [double] *)

Declare Scope dbl_scope.
Delimit Scope dbl_scope with dbl.

Class Scalar (D : Type) : Type := {
  of_Z : Z -> D;                 (* an integral literal or conversion: 1.0, 180.0, (double) n *)
  lit_0_4 : D;                   (* 0.4 *)
  lit_0_01 : D;                  (* 0.01 *)
  lit_0_05 : D;                  (* 0.05 *)
  lit_2_5 : D;                   (* 2.5 *)
  EIGEN_PI : D;
  dadd : D -> D -> D;
  dsub : D -> D -> D;
  dmul : D -> D -> D;
  ddiv : D -> D -> D;
  dsqrt : D -> D;
  dacos : D -> D;                (* libm *)
  dsin : D -> D;
  dcos : D -> D;
  dltb : D -> D -> bool;         (* x < y *)
  dleb : D -> D -> bool          (* x <= y *)
}.

Infix "+" := dadd : dbl_scope.
Infix "-" := dsub : dbl_scope.
Infix "*" := dmul : dbl_scope.
Infix "/" := ddiv : dbl_scope.
Notation "x <? y" := (dltb x y) : dbl_scope.
Notation "x <=? y" := (dleb x y) : dbl_scope.
Notation "x >? y" := (dltb y x) (only parsing) : dbl_scope.
Notation "x >=? y" := (dleb y x) (only parsing) : dbl_scope.

(** The reals.  Comparisons are decided by [Rlt_dec] and [Rle_dec]. *)

Definition R_ltb (x y : R) : bool := if Rlt_dec x y then true else false.
Definition R_leb (x y : R) : bool := if Rle_dec x y then true else false.

#[export] Instance R_Scalar : Scalar R := {|
  of_Z := IZR;
  lit_0_4 := (4 / 10)%R;
  lit_0_01 := (1 / 100)%R;
  lit_0_05 := (5 / 100)%R;
  lit_2_5 := (25 / 10)%R;
  EIGEN_PI := PI;
  dadd := Rplus;
  dsub := Rminus;
  dmul := Rmult;
  ddiv := Rdiv;
  dsqrt := sqrt;
  dacos := acos;
  dsin := sin;
  dcos := cos;
  dltb := R_ltb;
  dleb := R_leb
|}.

(** IEEE binary64.  The arithmetic, the square root and the comparisons are
    the kernel's; [acos], [sin] and [cos] belong to the C library and are
    arguments of the instance. *)

Class libm : Type := {
  libm_acos : float -> float;
  libm_sin : float -> float;
  libm_cos : float -> float
}.

Definition float_of_Z (z : Z) : float :=
  let a := PrimFloat.of_uint63 (Uint63.of_Z (Z.abs z)) in
  if (z <? 0)%Z then PrimFloat.opp a else a.

#[export] Instance float_Scalar {m : libm} : Scalar float := {|
  of_Z := float_of_Z;
  lit_0_4 := 0x1.999999999999ap-2%float;
  lit_0_01 := 0x1.47ae147ae147bp-7%float;
  lit_0_05 := 0x1.999999999999ap-5%float;
  lit_2_5 := 2.5%float;
  EIGEN_PI := 0x1.921fb54442d18p+1%float;
  dadd := PrimFloat.add;
  dsub := PrimFloat.sub;
  dmul := PrimFloat.mul;
  ddiv := PrimFloat.div;
  dsqrt := PrimFloat.sqrt;
  dacos := libm_acos;
  dsin := libm_sin;
  dcos := libm_cos;
  dltb := PrimFloat.ltb;
  dleb := PrimFloat.leb
|}.

(** ** Eigen's fixed-size vectors and matrices *)

Section Geometry.

Context {D : Type} {SD : Scalar D}.
Local Open Scope dbl_scope.

Record Vector3d : Type := mkVector3d { v0 : D; v1 : D; v2 : D }.

(** [mIJ] is the coefficient [(I,J)]: row [I], column [J]. *)
Record Matrix3d : Type := mkMatrix3d {
  m00 : D; m01 : D; m02 : D;
  m10 : D; m11 : D; m12 : D;
  m20 : D; m21 : D; m22 : D
}.

Definition Zero3 : Vector3d := mkVector3d (of_Z 0) (of_Z 0) (of_Z 0).

Definition Identity : Matrix3d :=
  mkMatrix3d (of_Z 1) (of_Z 0) (of_Z 0)
             (of_Z 0) (of_Z 1) (of_Z 0)
             (of_Z 0) (of_Z 0) (of_Z 1).

Definition row (m : Matrix3d) (i : nat) : Vector3d :=
  match i with
  | O => mkVector3d (m00 m) (m01 m) (m02 m)
  | S O => mkVector3d (m10 m) (m11 m) (m12 m)
  | _ => mkVector3d (m20 m) (m21 m) (m22 m)
  end.

Definition coeff (v : Vector3d) (i : nat) : D :=
  match i with O => v0 v | S O => v1 v | _ => v2 v end.

Definition transpose (m : Matrix3d) : Matrix3d :=
  mkMatrix3d (m00 m) (m10 m) (m20 m)
             (m01 m) (m11 m) (m21 m)
             (m02 m) (m12 m) (m22 m).

Definition dot3 (a0 a1 a2 b0 b1 b2 : D) : D := a0 * b0 + a1 * b1 + a2 * b2.

Definition mmul (a b : Matrix3d) : Matrix3d :=
  mkMatrix3d
    (dot3 (m00 a) (m01 a) (m02 a) (m00 b) (m10 b) (m20 b))
    (dot3 (m00 a) (m01 a) (m02 a) (m01 b) (m11 b) (m21 b))
    (dot3 (m00 a) (m01 a) (m02 a) (m02 b) (m12 b) (m22 b))
    (dot3 (m10 a) (m11 a) (m12 a) (m00 b) (m10 b) (m20 b))
    (dot3 (m10 a) (m11 a) (m12 a) (m01 b) (m11 b) (m21 b))
    (dot3 (m10 a) (m11 a) (m12 a) (m02 b) (m12 b) (m22 b))
    (dot3 (m20 a) (m21 a) (m22 a) (m00 b) (m10 b) (m20 b))
    (dot3 (m20 a) (m21 a) (m22 a) (m01 b) (m11 b) (m21 b))
    (dot3 (m20 a) (m21 a) (m22 a) (m02 b) (m12 b) (m22 b)).

Definition msub (a b : Matrix3d) : Matrix3d :=
  mkMatrix3d (m00 a - m00 b) (m01 a - m01 b) (m02 a - m02 b)
             (m10 a - m10 b) (m11 a - m11 b) (m12 a - m12 b)
             (m20 a - m20 b) (m21 a - m21 b) (m22 a - m22 b).

Definition mvmul (a : Matrix3d) (v : Vector3d) : Vector3d :=
  mkVector3d (dot3 (m00 a) (m01 a) (m02 a) (v0 v) (v1 v) (v2 v))
             (dot3 (m10 a) (m11 a) (m12 a) (v0 v) (v1 v) (v2 v))
             (dot3 (m20 a) (m21 a) (m22 a) (v0 v) (v1 v) (v2 v)).

Definition vadd (a b : Vector3d) : Vector3d :=
  mkVector3d (v0 a + v0 b) (v1 a + v1 b) (v2 a + v2 b).

Definition vsub (a b : Vector3d) : Vector3d :=
  mkVector3d (v0 a - v0 b) (v1 a - v1 b) (v2 a - v2 b).

Definition vscale (a : Vector3d) (c : D) : Vector3d :=
  mkVector3d (v0 a * c) (v1 a * c) (v2 a * c).

Definition vdiv (a : Vector3d) (c : D) : Vector3d :=
  mkVector3d (v0 a / c) (v1 a / c) (v2 a / c).

Definition squaredNorm (a : Vector3d) : D :=
  v0 a * v0 a + v1 a * v1 a + v2 a * v2 a.

Definition norm (a : Vector3d) : D := dsqrt (squaredNorm a).

(** [MatrixBase::normalize()] of Eigen 3.3 (the release that ships [BDCSVD]
    in [Eigen/Dense]): the vector is divided by its norm unless its squared
    norm is not positive. *)
Definition normalize (a : Vector3d) : Vector3d :=
  let z := squaredNorm a in
  if z >? of_Z 0 then vdiv a (dsqrt z) else a.

(** The determinant of a 3x3 matrix, by the expansion Eigen uses at that
    size. *)
Definition det3_helper (m : Matrix3d) (a b c : nat) : D :=
  coeff (row m 0) a * (coeff (row m 1) b * coeff (row m 2) c
                       - coeff (row m 1) c * coeff (row m 2) b).

Definition determinant (m : Matrix3d) : D :=
  det3_helper m 0 1 2 - det3_helper m 1 0 2 + det3_helper m 2 0 1.

End Geometry.

Arguments Vector3d D : clear implicits.
Arguments Matrix3d D : clear implicits.

(** ** The OpenVR types the engine reads and writes

    Only the fields [Calibration.cpp] touches are kept. *)

Section OpenVR.

Context {D : Type} {SD : Scalar D}.

(** [float m[3][4]]: [hIJ] is [m[I][J]].  The coefficients are single
    precision in the SDK and are widened to [double], exactly, where [Pose]
    reads them. *)
Record HmdMatrix34_t : Type := mkHmdMatrix34 {
  h00 : D; h01 : D; h02 : D; h03 : D;
  h10 : D; h11 : D; h12 : D; h13 : D;
  h20 : D; h21 : D; h22 : D; h23 : D
}.

Record TrackedDevicePose_t : Type := mkTrackedDevicePose {
  mDeviceToAbsoluteTracking : HmdMatrix34_t;
  bPoseIsValid : bool
}.

Record HmdQuaternion_t : Type := mkHmdQuaternion { qw : D; qx : D; qy : D; qz : D }.

Record HmdVector3d_t : Type := mkHmdVector3d { hv0 : D; hv1 : D; hv2 : D }.

End OpenVR.

Arguments HmdMatrix34_t D : clear implicits.
Arguments TrackedDevicePose_t D : clear implicits.
Arguments HmdQuaternion_t D : clear implicits.
Arguments HmdVector3d_t D : clear implicits.

Inductive ETrackedDeviceClass : Type :=
  | TrackedDeviceClass_Invalid
  | TrackedDeviceClass_HMD
  | TrackedDeviceClass_Controller
  | TrackedDeviceClass_GenericTracker
  | TrackedDeviceClass_TrackingReference
  | TrackedDeviceClass_DisplayRedirect.

Definition ETrackedDeviceClass_eqb (a b : ETrackedDeviceClass) : bool :=
  match a, b with
  | TrackedDeviceClass_Invalid, TrackedDeviceClass_Invalid
  | TrackedDeviceClass_HMD, TrackedDeviceClass_HMD
  | TrackedDeviceClass_Controller, TrackedDeviceClass_Controller
  | TrackedDeviceClass_GenericTracker, TrackedDeviceClass_GenericTracker
  | TrackedDeviceClass_TrackingReference, TrackedDeviceClass_TrackingReference
  | TrackedDeviceClass_DisplayRedirect, TrackedDeviceClass_DisplayRedirect => true
  | _, _ => false
  end.

(** [vr::k_unMaxTrackedDeviceCount], the length of every pose array. *)
Definition k_unMaxTrackedDeviceCount : nat := 64.

(** ** Poses, samples and delta samples *)

Section SampleModel.

Context {D : Type} {SD : Scalar D}.
Local Open Scope dbl_scope.

Record Pose : Type := mkPose { rot : Matrix3d D; trans : Vector3d D }.

(** [Pose() { }] leaves both members uninitialised, and nothing reads them
    before they are assigned; the embedding fills them with zeros. *)
Definition Pose_default : Pose :=
  mkPose (mkMatrix3d (of_Z 0) (of_Z 0) (of_Z 0)
                     (of_Z 0) (of_Z 0) (of_Z 0)
                     (of_Z 0) (of_Z 0) (of_Z 0))
         Zero3.

(** [Pose(vr::HmdMatrix34_t hmdMatrix)] *)
Definition Pose_of_HmdMatrix34 (h : HmdMatrix34_t D) : Pose :=
  mkPose (mkMatrix3d (h00 h) (h01 h) (h02 h)
                     (h10 h) (h11 h) (h12 h)
                     (h20 h) (h21 h) (h22 h))
         (mkVector3d (h03 h) (h13 h) (h23 h)).

Record Sample : Type := mkSample {
  Sample_ref : Pose;
  Sample_target : Pose;
  Sample_valid : bool
}.

(** [Sample() : valid(false)] *)
Definition Sample_default : Sample := mkSample Pose_default Pose_default false.

(** [Sample(Pose ref, Pose target) : valid(true)] *)
Definition Sample_of (ref target : Pose) : Sample := mkSample ref target true.

Record DSample : Type := mkDSample {
  DSample_valid : bool;
  DSample_ref : Vector3d D;
  DSample_target : Vector3d D
}.

Definition AxisFromRotationMatrix3 (rot : Matrix3d D) : Vector3d D :=
  mkVector3d (m21 rot - m12 rot) (m02 rot - m20 rot) (m10 rot - m01 rot).

Definition AngleFromRotationMatrix3 (rot : Matrix3d D) : D :=
  dacos ((m00 rot + m11 rot + m22 rot - of_Z 1) / of_Z 2).

(** The two relative rotations [DeltaRotationSamples] starts from. *)
Definition delta_ref (s1 s2 : Sample) : Matrix3d D :=
  mmul (rot (Sample_ref s1)) (transpose (rot (Sample_ref s2))).

Definition delta_target (s1 s2 : Sample) : Matrix3d D :=
  mmul (rot (Sample_target s1)) (transpose (rot (Sample_target s2))).

Definition DeltaRotationSamples (s1 s2 : Sample) : DSample :=
  (* Difference in rotation between samples. *)
  let dref := delta_ref s1 s2 in
  let dtarget := delta_target s1 s2 in
  let ds_ref := AxisFromRotationMatrix3 dref in
  let ds_target := AxisFromRotationMatrix3 dtarget in
  (* Reject samples that were too close to each other. *)
  let refA := AngleFromRotationMatrix3 dref in
  let targetA := AngleFromRotationMatrix3 dtarget in
  let valid := (refA >? lit_0_4) && (targetA >? lit_0_4)
               && (norm ds_ref >? lit_0_01) && (norm ds_target >? lit_0_01) in
  mkDSample valid (normalize ds_ref) (normalize ds_target).

End SampleModel.

Arguments Pose D : clear implicits.
Arguments Sample D : clear implicits.
Arguments DSample D : clear implicits.

(** ** The calibration context *)

Module CalibrationState.

Inductive t : Type := None | Editing | Begin | Rotation | Translation.

End CalibrationState.

Section Context_.

Context {D : Type} {SD : Scalar D}.

(** Modelled from the spec: [Calibration.h], which declares
    [CalibrationContext] and its method [Message], is not among the sources.
    The fields are the ones [Calibration.cpp] reads and writes, with the
    meaning section 3 of the specification gives them; [devicePoses] is the
    array of [k_unMaxTrackedDeviceCount] poses, read through [pose_at]. *)
Record CalibrationContext : Type := mkCalibrationContext {
  state : CalibrationState.t;
  referenceID : Z;
  targetID : Z;
  calibratedRotation : Vector3d D;
  calibratedTranslation : Vector3d D;
  targetTrackingSystem : string;
  validProfile : bool;
  timeLastTick : D;
  timeLastScan : D;
  wantedUpdateInterval : D;
  messages : string;
  devicePoses : nat -> TrackedDevicePose_t D
}.

Definition set_state (c : CalibrationContext) (s : CalibrationState.t) :=
  mkCalibrationContext s (referenceID c) (targetID c) (calibratedRotation c)
    (calibratedTranslation c) (targetTrackingSystem c) (validProfile c)
    (timeLastTick c) (timeLastScan c) (wantedUpdateInterval c) (messages c)
    (devicePoses c).

Definition set_calibratedRotation (c : CalibrationContext) (v : Vector3d D) :=
  mkCalibrationContext (state c) (referenceID c) (targetID c) v
    (calibratedTranslation c) (targetTrackingSystem c) (validProfile c)
    (timeLastTick c) (timeLastScan c) (wantedUpdateInterval c) (messages c)
    (devicePoses c).

Definition set_calibratedTranslation (c : CalibrationContext) (v : Vector3d D) :=
  mkCalibrationContext (state c) (referenceID c) (targetID c)
    (calibratedRotation c) v (targetTrackingSystem c) (validProfile c)
    (timeLastTick c) (timeLastScan c) (wantedUpdateInterval c) (messages c)
    (devicePoses c).

Definition set_timeLastTick (c : CalibrationContext) (t : D) :=
  mkCalibrationContext (state c) (referenceID c) (targetID c)
    (calibratedRotation c) (calibratedTranslation c) (targetTrackingSystem c)
    (validProfile c) t (timeLastScan c) (wantedUpdateInterval c) (messages c)
    (devicePoses c).

Definition set_timeLastScan (c : CalibrationContext) (t : D) :=
  mkCalibrationContext (state c) (referenceID c) (targetID c)
    (calibratedRotation c) (calibratedTranslation c) (targetTrackingSystem c)
    (validProfile c) (timeLastTick c) t (wantedUpdateInterval c) (messages c)
    (devicePoses c).

Definition set_wantedUpdateInterval (c : CalibrationContext) (t : D) :=
  mkCalibrationContext (state c) (referenceID c) (targetID c)
    (calibratedRotation c) (calibratedTranslation c) (targetTrackingSystem c)
    (validProfile c) (timeLastTick c) (timeLastScan c) t (messages c)
    (devicePoses c).

Definition set_messages (c : CalibrationContext) (s : string) :=
  mkCalibrationContext (state c) (referenceID c) (targetID c)
    (calibratedRotation c) (calibratedTranslation c) (targetTrackingSystem c)
    (validProfile c) (timeLastTick c) (timeLastScan c) (wantedUpdateInterval c)
    s (devicePoses c).

Definition set_devicePoses (c : CalibrationContext)
    (p : nat -> TrackedDevicePose_t D) :=
  mkCalibrationContext (state c) (referenceID c) (targetID c)
    (calibratedRotation c) (calibratedTranslation c) (targetTrackingSystem c)
    (validProfile c) (timeLastTick c) (timeLastScan c) (wantedUpdateInterval c)
    (messages c) p.

(** Modelled from the spec: [CalibrationContext::Message] appends to the
    progress log (section 6: an append-only text log). *)
Definition Message (c : CalibrationContext) (msg : string) : CalibrationContext :=
  set_messages c (messages c ++ msg).

(** [ctx.devicePoses[id]]: defined inside the array only. *)
Definition pose_at (c : CalibrationContext) (id : Z) : option (TrackedDevicePose_t D) :=
  if (0 <=? id)%Z && (id <? Z.of_nat k_unMaxTrackedDeviceCount)%Z
  then Some (devicePoses c (Z.to_nat id))
  else None.

End Context_.

Arguments CalibrationContext D : clear implicits.

(** ** What the engine calls and does not define

    Eigen's decompositions, [printf]'s rendering of a [double], and
    [SaveProfile] of [Configuration.cpp]. *)

Record Extern (D : Type) : Type := mkExtern {
  (* BDCSVD of a 3x3 matrix with ComputeThinU | ComputeThinV *)
  matrixU : Matrix3d D -> Matrix3d D;
  matrixV : Matrix3d D -> Matrix3d D;
  (* rot.eulerAngles(a0, a1, a2) *)
  eulerAngles : Matrix3d D -> nat -> nat -> nat -> Vector3d D;
  (* coefficients.bdcSvd(ComputeThinU | ComputeThinV).solve(constants) *)
  bdcSvd_solve : list (Vector3d D) -> list D -> Vector3d D;
  (* "%.2f" *)
  printf_2f : D -> string;
  SaveProfile : CalibrationContext D -> CalibrationContext D
}.

(** ** Formatting *)

(** ["%d"] and ["%zd"] *)
Definition printf_d (z : Z) : string := NilZero.string_of_int (Z.to_int z).

(** [snprintf(buf, sizeof buf, ...)] with [char buf[256]] keeps at most 255
    characters. *)
Definition snprintf_buf (s : string) : string := substring 0 255 s.

Definition LF : string := String (ascii_of_nat 10) EmptyString.

(** ** The two calibrators *)

Section Calibrators.

Context {D : Type} {SD : Scalar D}.
Variable E : Extern D.
Local Open Scope dbl_scope.

(** The index pairs both calibrators visit, in the order of
    [for (i = 0; i < n; i++) for (j = 0; j < i; j++)]. *)
Definition index_pairs (n : nat) : list (nat * nat) :=
  flat_map (fun i => map (fun j => (i, j)) (seq 0 i)) (seq 0 n).

(** [samples[i]] *)
Definition at_ (samples : list (Sample D)) (i : nat) : Sample D :=
  nth i samples Sample_default.

(** The first loop of [CalibrateRotation]: the valid delta samples. *)
Definition RotationDeltas (samples : list (Sample D)) : list (DSample D) :=
  flat_map
    (fun ij =>
       let delta := DeltaRotationSamples (at_ samples (fst ij)) (at_ samples (snd ij)) in
       if DSample_valid delta then [delta] else [])
    (index_pairs (List.length samples)).

(** An n-by-3 [MatrixXd] is the list of its rows. *)
Definition Zero33 : Matrix3d D :=
  mkMatrix3d (of_Z 0) (of_Z 0) (of_Z 0)
             (of_Z 0) (of_Z 0) (of_Z 0)
             (of_Z 0) (of_Z 0) (of_Z 0).

Definition madd (a b : Matrix3d D) : Matrix3d D :=
  mkMatrix3d (m00 a + m00 b) (m01 a + m01 b) (m02 a + m02 b)
             (m10 a + m10 b) (m11 a + m11 b) (m12 a + m12 b)
             (m20 a + m20 b) (m21 a + m21 b) (m22 a + m22 b).

Definition outer (r t : Vector3d D) : Matrix3d D :=
  mkMatrix3d (v0 r * v0 t) (v0 r * v1 t) (v0 r * v2 t)
             (v1 r * v0 t) (v1 r * v1 t) (v1 r * v2 t)
             (v2 r * v0 t) (v2 r * v1 t) (v2 r * v2 t).

(** [a.transpose() * b] for two n-by-3 matrices: coefficient [(p,q)] is the
    sum over the rows [i] of [a(i,p) * b(i,q)], added up row after row. *)
Definition transpose_times (a b : list (Vector3d D)) : Matrix3d D :=
  fold_left (fun acc rt => madd acc (outer (fst rt) (snd rt))) (combine a b) Zero33.

(** The centroid loop and the division that follows it. *)
Definition centroid_sum (points : list (Vector3d D)) : Vector3d D :=
  fold_left vadd points Zero3.

Definition centroid (points : list (Vector3d D)) (count : nat) : Vector3d D :=
  vdiv (centroid_sum points) (of_Z (Z.of_nat count)).

Definition refCentroid (deltas : list (DSample D)) : Vector3d D :=
  centroid (map (@DSample_ref D) deltas) (List.length deltas).

Definition targetCentroid (deltas : list (DSample D)) : Vector3d D :=
  centroid (map (@DSample_target D) deltas) (List.length deltas).

Definition crossCV (deltas : list (DSample D)) : Matrix3d D :=
  let refPoints := map (fun d => vsub (DSample_ref d) (refCentroid deltas)) deltas in
  let targetPoints := map (fun d => vsub (DSample_target d) (targetCentroid deltas)) deltas in
  transpose_times refPoints targetPoints.

Definition set_m22 (m : Matrix3d D) (x : D) : Matrix3d D :=
  mkMatrix3d (m00 m) (m01 m) (m02 m) (m10 m) (m11 m) (m12 m) (m20 m) (m21 m) x.

(** From the decomposition to the rotation, lines 160 to 170. *)
Definition KabschRotation (cv : Matrix3d D) : Matrix3d D :=
  let U := matrixU E cv in
  let V := matrixV E cv in
  let i := if determinant (mmul U (transpose V)) <? of_Z 0
           then set_m22 Identity (of_Z (-1))
           else Identity in
  let rot := mmul (mmul V i) (transpose U) in
  transpose rot.

Definition RotationEuler (deltas : list (DSample D)) : Vector3d D :=
  vdiv (vscale (eulerAngles E (KabschRotation (crossCV deltas)) 2 1 0) (of_Z 180)) EIGEN_PI.

Definition CalibrateRotation (ctx : CalibrationContext D) (samples : list (Sample D))
  : CalibrationContext D * Vector3d D :=
  let deltas := RotationDeltas samples in
  let ctx := Message ctx (snprintf_buf
    ("Got " ++ printf_d (Z.of_nat (List.length samples)) ++ " samples with "
     ++ printf_d (Z.of_nat (List.length deltas)) ++ " delta samples" ++ LF)) in
  (* Kabsch algorithm *)
  let euler := RotationEuler deltas in
  let ctx := Message ctx (snprintf_buf
    ("Calibrated rotation: yaw=" ++ printf_2f E (v1 euler)
     ++ " pitch=" ++ printf_2f E (v2 euler)
     ++ " roll=" ++ printf_2f E (v0 euler) ++ LF)) in
  (ctx, euler).

(** The two blocks one pair [(i, j)] adds to [deltas] in
    [CalibrateTranslation]: the reference's, then the target's. *)
Definition translation_block (rot_of : Sample D -> Matrix3d D) (si sj : Sample D)
  : Vector3d D * Matrix3d D :=
  let Qi := transpose (rot_of si) in
  let Qj := transpose (rot_of sj) in
  let dQ := msub Qj Qi in
  let C := vsub (mvmul Qj (vsub (trans (Sample_ref sj)) (trans (Sample_target sj))))
                (mvmul Qi (vsub (trans (Sample_ref si)) (trans (Sample_target si)))) in
  (C, dQ).

Definition TranslationDeltas (samples : list (Sample D))
  : list (Vector3d D * Matrix3d D) :=
  flat_map
    (fun ij =>
       let si := at_ samples (fst ij) in
       let sj := at_ samples (snd ij) in
       [ translation_block (fun s => rot (Sample_ref s)) si sj;
         translation_block (fun s => rot (Sample_target s)) si sj ])
    (index_pairs (List.length samples)).

(** Row [i * 3 + axis] of the system, for [axis] = 0, 1, 2. *)
Definition constants (deltas : list (Vector3d D * Matrix3d D)) : list D :=
  flat_map (fun d => [coeff (fst d) 0; coeff (fst d) 1; coeff (fst d) 2]) deltas.

Definition coefficients (deltas : list (Vector3d D * Matrix3d D)) : list (Vector3d D) :=
  flat_map (fun d => [row (snd d) 0; row (snd d) 1; row (snd d) 2]) deltas.

Definition CalibrateTranslation (ctx : CalibrationContext D) (samples : list (Sample D))
  : CalibrationContext D * Vector3d D :=
  let deltas := TranslationDeltas samples in
  let trans := bdcSvd_solve E (coefficients deltas) (constants deltas) in
  let transcm := vscale trans (of_Z 100) in
  let ctx := Message ctx (snprintf_buf
    ("Calibrated translation x=" ++ printf_2f E (v0 transcm)
     ++ " y=" ++ printf_2f E (v1 transcm)
     ++ " z=" ++ printf_2f E (v2 transcm) ++ LF)) in
  (ctx, transcm).

End Calibrators.

(** ** The engine: acquisition gate, offset actuator and state machine *)

(** An array access outside the array is undefined: such a run has no next
    state, and the functions below return [None] for it. *)
Notation "x <- e ;; k" := (match e with Some x => k | None => None end)
  (at level 61, e at next level, right associativity, only parsing).
Notation "' p <- e ;; k" := (match e with Some p => k | None => None end)
  (at level 61, p pattern, e at next level, right associativity, only parsing).

(** [int] to [uint32_t], at the calls that take a device index. *)
Definition to_uint32 (z : Z) : Z := (z mod 2 ^ 32)%Z.

Section Engine.

Context {D : Type} {SD : Scalar D}.
Variable E : Extern D.
Local Open Scope dbl_scope.

(** The calls [InputEmulator] receives. *)
Inductive EmuCall : Type :=
  | setWorldFromDriverRotationOffset (id : Z) (q : HmdQuaternion_t D)
  | setWorldFromDriverTranslationOffset (id : Z) (v : HmdVector3d_t D)
  | enableDeviceOffsets (id : Z) (enable : bool).

(** What the OpenVR runtime answers during one tick. *)
Record VRSystem_t : Type := mkVRSystem {
  (* vr::VRSystem() is not null *)
  VRSystem : bool;
  (* GetDeviceToAbsoluteTrackingPose(TrackingUniverseRawAndUncalibrated, ...) *)
  GetDeviceToAbsoluteTrackingPose : nat -> TrackedDevicePose_t D;
  GetTrackedDeviceClass : nat -> ETrackedDeviceClass;
  (* Prop_TrackingSystemName_String; None when err is not TrackedProp_Success *)
  GetStringTrackedDeviceProperty : nat -> option string
}.

(** The state between two calls: the global [CalCtx], the function-local
    [static std::vector<Sample> samples] of [CalibrationTick], and the calls
    [InputEmulator] has received, oldest first. *)
Record Machine : Type := mkMachine {
  CalCtx : CalibrationContext D;
  samples : list (Sample D);
  InputEmulator : list EmuCall
}.

(** Eigen's quaternion of an angle and a unit axis, and its product. *)
Definition AngleAxisd (angle : D) (axis : Vector3d D) : HmdQuaternion_t D :=
  let ha := of_Z 1 / of_Z 2 * angle in
  let s := dsin ha in
  mkHmdQuaternion (dcos ha) (s * v0 axis) (s * v1 axis) (s * v2 axis).

Definition qmul (a b : HmdQuaternion_t D) : HmdQuaternion_t D :=
  mkHmdQuaternion
    (qw a * qw b - qx a * qx b - qy a * qy b - qz a * qz b)
    (qw a * qx b + qx a * qw b + qy a * qz b - qz a * qy b)
    (qw a * qy b + qy a * qw b + qz a * qx b - qx a * qz b)
    (qw a * qz b + qz a * qw b + qx a * qy b - qy a * qx b).

Definition UnitX : Vector3d D := mkVector3d (of_Z 1) (of_Z 0) (of_Z 0).
Definition UnitY : Vector3d D := mkVector3d (of_Z 0) (of_Z 1) (of_Z 0).
Definition UnitZ : Vector3d D := mkVector3d (of_Z 0) (of_Z 0) (of_Z 1).

Definition VRRotationQuat (eulerdeg : Vector3d D) : HmdQuaternion_t D :=
  let euler := vdiv (vscale eulerdeg EIGEN_PI) (of_Z 180) in
  qmul (qmul (AngleAxisd (v0 euler) UnitZ) (AngleAxisd (v1 euler) UnitY))
       (AngleAxisd (v2 euler) UnitX).

Definition VRTranslationVec (transcm : Vector3d D) : HmdVector3d_t D :=
  let trans := vscale transcm lit_0_01 in
  mkHmdVector3d (v0 trans) (v1 trans) (v2 trans).

Definition CollectSample (ctx : CalibrationContext D)
  : option (CalibrationContext D * Sample D) :=
  reference <- pose_at ctx (referenceID ctx) ;;
  target <- pose_at ctx (targetID ctx) ;;
  let ok := true in
  let '(ctx, ok) :=
    if negb (bPoseIsValid reference)
    then (Message ctx ("Reference device is not tracking" ++ LF), false)
    else (ctx, ok) in
  let '(ctx, ok) :=
    if negb (bPoseIsValid target)
    then (Message ctx ("Target device is not tracking" ++ LF), false)
    else (ctx, ok) in
  if negb ok
  then
    let ctx := Message ctx ("Aborting calibration!" ++ LF) in
    let ctx := set_state ctx CalibrationState.None in
    Some (ctx, Sample_default)
  else
    Some (ctx, Sample_of (Pose_of_HmdMatrix34 (mDeviceToAbsoluteTracking reference))
                         (Pose_of_HmdMatrix34 (mDeviceToAbsoluteTracking target))).

(** The body of the loop of [ScanAndApplyProfile] for one device index. *)
Definition ScanAndApplyProfile_step (vr : VRSystem_t) (ctx : CalibrationContext D)
    (emu : list EmuCall) (id : nat) : list EmuCall :=
  let deviceClass := GetTrackedDeviceClass vr id in
  if ETrackedDeviceClass_eqb deviceClass TrackedDeviceClass_Invalid then emu else
  match GetStringTrackedDeviceProperty vr id with
  | None => emu
  | Some trackingSystem =>
    if negb (String.eqb trackingSystem (targetTrackingSystem ctx)) then emu else
    if ETrackedDeviceClass_eqb deviceClass TrackedDeviceClass_TrackingReference
       || ETrackedDeviceClass_eqb deviceClass TrackedDeviceClass_HMD
    then emu
    else
      emu ++ [ setWorldFromDriverRotationOffset (Z.of_nat id)
                 (VRRotationQuat (calibratedRotation ctx));
               setWorldFromDriverTranslationOffset (Z.of_nat id)
                 (VRTranslationVec (calibratedTranslation ctx));
               enableDeviceOffsets (Z.of_nat id) true ]
  end.

Definition ScanAndApplyProfile (vr : VRSystem_t) (ctx : CalibrationContext D)
    (emu : list EmuCall) : list EmuCall :=
  fold_left (ScanAndApplyProfile_step vr ctx) (seq 0 k_unMaxTrackedDeviceCount) emu.

Definition ResetAndDisableOffsets (id : Z) (emu : list EmuCall) : list EmuCall :=
  let zeroV := mkHmdVector3d (of_Z 0) (of_Z 0) (of_Z 0) in
  let zeroQ := mkHmdQuaternion (of_Z 1) (of_Z 0) (of_Z 0) (of_Z 0) in
  emu ++ [ setWorldFromDriverRotationOffset id zeroQ;
           setWorldFromDriverTranslationOffset id zeroV;
           enableDeviceOffsets id false ].

Definition StartCalibration (ctx : CalibrationContext D) : CalibrationContext D :=
  let ctx := set_state ctx CalibrationState.Begin in
  let ctx := set_wantedUpdateInterval ctx (of_Z 0) in
  set_messages ctx "".

(** The check [CalibrationTick] makes in [Begin] for one of the two devices:
    the identifier is set, and the device is tracking. *)
Definition begin_check (missing untracked : string) (id : Z)
    (st : CalibrationContext D * bool) : option (CalibrationContext D * bool) :=
  let '(ctx, ok) := st in
  if (id =? -1)%Z then Some (Message ctx (missing ++ LF), false)
  else
    pose <- pose_at ctx id ;;
    if negb (bPoseIsValid pose)
    then Some (Message ctx (untracked ++ LF), false)
    else Some (ctx, ok).

(** [None]: the idle state re-applies a valid profile every 2.5 seconds. *)
Definition TickNone (vr : VRSystem_t) (time : D) (m : Machine)
    (ctx : CalibrationContext D) : Machine :=
  let ctx := set_wantedUpdateInterval ctx (of_Z 1) in
  if negb (validProfile ctx) then mkMachine ctx (samples m) (InputEmulator m)
  else if (time - timeLastScan ctx) >=? lit_2_5
  then
    let emu := ScanAndApplyProfile vr ctx (InputEmulator m) in
    let ctx := set_timeLastScan ctx time in
    mkMachine ctx (samples m) emu
  else mkMachine ctx (samples m) (InputEmulator m).

Definition TickEditing (vr : VRSystem_t) (m : Machine)
    (ctx : CalibrationContext D) : Machine :=
  let ctx := set_wantedUpdateInterval ctx (of_Z 0) in
  if negb (validProfile ctx) then mkMachine ctx (samples m) (InputEmulator m)
  else mkMachine ctx (samples m) (ScanAndApplyProfile vr ctx (InputEmulator m)).

Definition TickBegin (m : Machine) (ctx : CalibrationContext D) : option Machine :=
  let ok := true in
  st <- begin_check "Missing reference device" "Reference device is not tracking"
          (referenceID ctx) (ctx, ok) ;;
  '(ctx, ok) <- begin_check "Missing target device" "Target device is not tracking"
          (targetID ctx) st ;;
  if negb ok
  then
    let ctx := set_state ctx CalibrationState.None in
    let ctx := Message ctx ("Aborting calibration!" ++ LF) in
    Some (mkMachine ctx (samples m) (InputEmulator m))
  else
    let emu := ResetAndDisableOffsets (to_uint32 (targetID ctx)) (InputEmulator m) in
    let ctx := set_state ctx CalibrationState.Rotation in
    let ctx := set_wantedUpdateInterval ctx (of_Z 0) in
    let ctx := Message ctx (snprintf_buf
      ("Starting calibration, referenceID=" ++ printf_d (referenceID ctx)
       ++ " targetID=" ++ printf_d (targetID ctx) ++ LF)) in
    Some (mkMachine ctx (samples m) emu).

Definition totalSamples : nat := 100.

(** [Rotation] and [Translation]: one sample is collected and, at the
    hundredth, the phase's calibrator runs. *)
Definition TickSample (m : Machine) (ctx : CalibrationContext D) : option Machine :=
  '(ctx, sample) <- CollectSample ctx ;;
  if negb (Sample_valid sample)
  then Some (mkMachine ctx (samples m) (InputEmulator m))
  else
    let ctx := Message ctx "." in
    let samples := samples m ++ [sample] in
    if (List.length samples =? totalSamples)%nat
    then
      let ctx := Message ctx LF in
      match state ctx with
      | CalibrationState.Rotation =>
        let '(ctx, euler) := CalibrateRotation E ctx samples in
        let ctx := set_calibratedRotation ctx euler in
        let vrRotQuat := VRRotationQuat (calibratedRotation ctx) in
        let emu := InputEmulator m ++
          [ setWorldFromDriverRotationOffset (to_uint32 (targetID ctx)) vrRotQuat;
            enableDeviceOffsets (to_uint32 (targetID ctx)) true ] in
        let ctx := set_state ctx CalibrationState.Translation in
        Some (mkMachine ctx [] emu)
      | CalibrationState.Translation =>
        let '(ctx, transcm) := CalibrateTranslation E ctx samples in
        let ctx := set_calibratedTranslation ctx transcm in
        let vrTrans := VRTranslationVec (calibratedTranslation ctx) in
        let emu := InputEmulator m ++
          [ setWorldFromDriverTranslationOffset (to_uint32 (targetID ctx)) vrTrans ] in
        let ctx := SaveProfile E ctx in
        let ctx := Message ctx ("Finished calibration, profile saved" ++ LF) in
        let ctx := set_state ctx CalibrationState.None in
        Some (mkMachine ctx [] emu)
      | _ => Some (mkMachine ctx [] (InputEmulator m))
      end
    else Some (mkMachine ctx samples (InputEmulator m)).

(** What a tick does once it is past the two early returns of lines 351 to
    356. *)
Definition TickProcess (vr : VRSystem_t) (time : D) (m : Machine) : option Machine :=
  let ctx := CalCtx m in
  let ctx := set_timeLastTick ctx time in
  let ctx := set_devicePoses ctx (GetDeviceToAbsoluteTrackingPose vr) in
  match state ctx with
  | CalibrationState.None => Some (TickNone vr time m ctx)
  | CalibrationState.Editing => Some (TickEditing vr m ctx)
  | CalibrationState.Begin => TickBegin m ctx
  | _ => TickSample m ctx
  end.

Definition CalibrationTick (vr : VRSystem_t) (time : D) (m : Machine) : option Machine :=
  if negb (VRSystem vr) then Some m
  else if (time - timeLastTick (CalCtx m)) <? lit_0_05 then Some m
  else TickProcess vr time m.

End Engine.

Arguments Machine D : clear implicits.
Arguments VRSystem_t D : clear implicits.
Arguments EmuCall D : clear implicits.

(** ** Runs of the engine *)

Section Runs.

Context {D : Type} {SD : Scalar D}.
Variable E : Extern D.
Local Open Scope dbl_scope.

(** A device index inside the pose array. *)
Definition in_array (id : Z) : Prop :=
  (0 <= id < Z.of_nat k_unMaxTrackedDeviceCount)%Z.

(** An identifier the host may have stored: unset, or a device index. *)
Definition selectable (id : Z) : Prop := id = (-1)%Z \/ in_array id.

(** The runtime reports device [id] as tracked during this tick. *)
Definition tracking (vr : VRSystem_t D) (id : Z) : bool :=
  bPoseIsValid (GetDeviceToAbsoluteTrackingPose vr (Z.to_nat id)).

Definition tracked (vr : VRSystem_t D) (id : Z) : Prop :=
  in_array id /\ tracking vr id = true.

(** The device is selected and tracked: what [Begin] asks of each device. *)
Definition ready (vr : VRSystem_t D) (id : Z) : bool :=
  negb (id =? -1)%Z && tracking vr id.

(** The sample a tick collects when both devices are tracked. *)
Definition sample_of_tick (vr : VRSystem_t D) (ctx : CalibrationContext D) : Sample D :=
  Sample_of
    (Pose_of_HmdMatrix34 (mDeviceToAbsoluteTracking
       (GetDeviceToAbsoluteTrackingPose vr (Z.to_nat (referenceID ctx)))))
    (Pose_of_HmdMatrix34 (mDeviceToAbsoluteTracking
       (GetDeviceToAbsoluteTrackingPose vr (Z.to_nat (targetID ctx))))).

(** The context as a processed tick has it before it looks at the state. *)
Definition ticked (vr : VRSystem_t D) (time : D) (ctx : CalibrationContext D)
  : CalibrationContext D :=
  set_devicePoses (set_timeLastTick ctx time) (GetDeviceToAbsoluteTrackingPose vr).

(** The host calls [StartCalibration()]. *)
Definition start (m : Machine D) : Machine D :=
  mkMachine (StartCalibration (CalCtx m)) (samples m) (InputEmulator m).

(** Consecutive ticks, each with the runtime's answers and its time. *)
Fixpoint run (ticks : list (VRSystem_t D * D)) (m : Machine D) : option (Machine D) :=
  match ticks with
  | [] => Some m
  | (vr, time) :: rest => m' <- CalibrationTick E vr time m ;; run rest m'
  end.

(** One move of the whole system: a tick, a start request, or the host
    writing into the context (device selection, a reset to idle, editing).
    The sample accumulator is local to [CalibrationTick] and the actuator
    only receives calls, so the host reaches neither. *)
Inductive step : Machine D -> Machine D -> Prop :=
  | step_tick vr time m m' :
      CalibrationTick E vr time m = Some m' -> step m m'
  | step_start m :
      step m (start m)
  | step_host m ctx :
      step m (mkMachine ctx (samples m) (InputEmulator m)).

(** The process starts with an empty accumulator. *)
Inductive reachable : Machine D -> Prop :=
  | reachable_init ctx :
      reachable (mkMachine ctx [] [])
  | reachable_step m m' :
      reachable m -> step m m' -> reachable m'.

(** The line [Begin] logs for one device, if any. *)
Definition device_diagnostic (missing untracked : string) (vr : VRSystem_t D) (id : Z)
  : string :=
  if (id =? -1)%Z then missing ++ LF
  else if tracking vr id then "" else untracked ++ LF.

(** Radians to degrees, as [CalibrateRotation] scales its result. *)
Definition degrees (v : Vector3d D) : Vector3d D :=
  vdiv (vscale v (of_Z 180)) EIGEN_PI.

End Runs.

(** ** The Kabsch correction in the specification's words *)

Definition negate_last_column (m : Matrix3d R) : Matrix3d R :=
  mkMatrix3d (m00 m) (m01 m) (- m02 m)%R
             (m10 m) (m11 m) (- m12 m)%R
             (m20 m) (m21 m) (- m22 m)%R.

(** With singular values in decreasing order, as Eigen returns them, the
    last column of [V] is the axis of the smallest one. *)
Definition reflection_corrected (U V : Matrix3d R) : Matrix3d R :=
  if Rlt_dec (determinant (mmul U (transpose V))) 0
  then negate_last_column V
  else V.

Definition Kabsch_spec (U V : Matrix3d R) : Matrix3d R :=
  transpose (mmul (reflection_corrected U V) (transpose U)).

(** Coefficient [(p, q)] of the cross-covariance of two lists of vectors
    centred on [cr] and [ct]. *)
Definition cross_covariance_coeff (deltas : list (DSample R)) (cr ct : Vector3d R)
    (p q : nat) : R :=
  fold_right Rplus 0%R
    (map (fun d => ((coeff (DSample_ref d) p - coeff cr p)
                    * (coeff (DSample_target d) q - coeff ct q))%R) deltas).

(** The mean of the listed vectors, coefficient by coefficient. *)
Definition mean_coeff (points : list (Vector3d R)) (p : nat) : R :=
  (fold_right Rplus 0%R (map (fun v => coeff v p) points)
   / INR (List.length points))%R.

(** ** A still scene

    Closed inputs for the instances that follow the theorems: two devices,
    indices 1 and 2, resting at the origin with identity orientation.  On
    this scene no pair of samples has a measurable rotation, the
    cross-covariance and the translation system are zero, and the external
    functions answer as [Extern_still] does: identity singular bases, zero
    Euler angles, a zero least-squares solution, and ["0.00"] for each
    printed zero. *)

Section Still.

Context {D : Type} {SD : Scalar D}.

Definition Extern_still : Extern D :=
  mkExtern (fun _ => Identity) (fun _ => Identity)
           (fun _ _ _ _ => Zero3) (fun _ _ => Zero3)
           (fun _ => "0.00"%string) (fun ctx => ctx).

Definition pose_still : HmdMatrix34_t D :=
  mkHmdMatrix34 (of_Z 1) (of_Z 0) (of_Z 0) (of_Z 0)
                (of_Z 0) (of_Z 1) (of_Z 0) (of_Z 0)
                (of_Z 0) (of_Z 0) (of_Z 1) (of_Z 0).

(** Every device is tracked. *)
Definition vr_tracked : VRSystem_t D :=
  mkVRSystem true (fun _ => mkTrackedDevicePose pose_still true)
             (fun _ => TrackedDeviceClass_Invalid) (fun _ => None).

(** Device 1, the reference, has lost tracking. *)
Definition vr_lost : VRSystem_t D :=
  mkVRSystem true (fun id => mkTrackedDevicePose pose_still (negb (id =? 1)%nat))
             (fun _ => TrackedDeviceClass_Invalid) (fun _ => None).

Definition ctx_still (st : CalibrationState.t) (referenceID targetID : Z)
  : CalibrationContext D :=
  mkCalibrationContext st referenceID targetID Zero3 Zero3 "lighthouse" false
    (of_Z 0) (of_Z 0) (of_Z 0) ""
    (fun _ => mkTrackedDevicePose pose_still true).

Definition sample_still : Sample D :=
  Sample_of (Pose_of_HmdMatrix34 pose_still) (Pose_of_HmdMatrix34 pose_still).

(** A machine in state [st] that has accumulated [n] samples. *)
Definition machine_still (st : CalibrationState.t) (n : nat) : Machine D :=
  mkMachine (ctx_still st 1 2) (repeat sample_still n) [].

End Still.

(** The C library on the still scene: [acos(1) = 0], [sin(0) = 0],
    [cos(0) = 1]. *)
Definition libm_still : libm :=
  Build_libm (fun _ => 0%float) (fun _ => 0%float) (fun _ => 1%float).

(** A quarter turn about the vertical axis, for the delta-sample instance. *)
Definition quarter_turn : Matrix3d R :=
  mkMatrix3d 0%R (-1)%R 0%R
             1%R 0%R 0%R
             0%R 0%R 1%R.

Definition sample_turned : Sample R :=
  Sample_of (mkPose quarter_turn Zero3) (mkPose quarter_turn Zero3).

(** The idle machine of the still scene after a processed tick at time 1. *)
Definition idle_ticked_at_1 : Machine R :=
  mkMachine (set_wantedUpdateInterval
               (ticked vr_tracked 1%R (ctx_still CalibrationState.None 1 2)) 1%R)
            [] [].

(** ** String helpers *)

(** [str.compare(pos, len, other) == 0]: the [len] characters of [str] from
    [pos] are [other]. *)
Definition StartsWith (str prefix : string) : bool :=
  if (String.length str <? String.length prefix)%nat then false
  else String.eqb (substring 0 (String.length prefix) str) prefix.

Definition EndsWith (str suffix : string) : bool :=
  if (String.length str <? String.length suffix)%nat then false
  else String.eqb
         (substring (String.length str - String.length suffix)
                    (String.length suffix) str)
         suffix.

(** ** Rotations about the vertical axis *)

Definition vneg (v : Vector3d R) : Vector3d R :=
  mkVector3d (- v0 v)%R (- v1 v)%R (- v2 v)%R.

(** The rotation by [theta] about the Z axis. *)
Definition RotZ (theta : R) : Matrix3d R :=
  mkMatrix3d (cos theta) (- sin theta)%R 0%R
             (sin theta) (cos theta) 0%R
             0%R 0%R 1%R.

(** Both devices at the origin, turned by [a] about the Z axis. *)
Definition sample_about_Z (a : R) : Sample R :=
  Sample_of (mkPose (RotZ a) Zero3) (mkPose (RotZ a) Zero3).

(** The squared norm of a quaternion. *)
Definition qnorm2 (q : HmdQuaternion_t R) : R :=
  (qw q * qw q + qx q * qx q + qy q * qy q + qz q * qz q)%R.

(** The sample [s] with both devices moved by [d]. *)
Definition shifted (d : Vector3d R) (s : Sample R) : Sample R :=
  mkSample (mkPose (rot (Sample_ref s)) (vadd (trans (Sample_ref s)) d))
           (mkPose (rot (Sample_target s)) (vadd (trans (Sample_target s)) d))
           (Sample_valid s).

(** The batch with its i-th sample moved by [shift i]. *)
Definition shifted_batch (shift : nat -> Vector3d R) (batch : list (Sample R))
  : list (Sample R) :=
  map (fun p => shifted (shift (fst p)) (snd p))
      (combine (seq 0 (List.length batch)) batch).

(** ** The devices a profile scan reaches *)

Section ProfileScan.

Context {D : Type} {SD : Scalar D}.

(** The device is of a class other than invalid, HMD and tracking
    reference, and its tracking system is the profile's. *)
Definition profile_applies (vr : VRSystem_t D) (ctx : CalibrationContext D)
    (id : nat) : bool :=
  match GetTrackedDeviceClass vr id with
  | TrackedDeviceClass_Invalid
  | TrackedDeviceClass_HMD
  | TrackedDeviceClass_TrackingReference => false
  | _ =>
    match GetStringTrackedDeviceProperty vr id with
    | Some trackingSystem => String.eqb trackingSystem (targetTrackingSystem ctx)
    | None => false
    end
  end.

(** The three calls that apply the profile to one device. *)
Definition profile_calls (ctx : CalibrationContext D) (id : nat) : list (EmuCall D) :=
  [ setWorldFromDriverRotationOffset (Z.of_nat id)
      (VRRotationQuat (calibratedRotation ctx));
    setWorldFromDriverTranslationOffset (Z.of_nat id)
      (VRTranslationVec (calibratedTranslation ctx));
    enableDeviceOffsets (Z.of_nat id) true ].

(** The device a call addresses. *)
Definition call_device (c : EmuCall D) : Z :=
  match c with
  | setWorldFromDriverRotationOffset id _ => id
  | setWorldFromDriverTranslationOffset id _ => id
  | enableDeviceOffsets id _ => id
  end.

(** The lines [CollectSample] logs: one for each device that is not
    tracked. *)
Definition loss_diagnostic (reference_tracked target_tracked : bool) : string :=
  ((if reference_tracked then "" else "Reference device is not tracking" ++ LF)
   ++ (if target_tracked then "" else "Target device is not tracking" ++ LF))%string.

End ProfileScan.

(** ** The moves of the state a tick can make *)

Definition tick_may_move (from to : CalibrationState.t) : bool :=
  match from, to with
  | CalibrationState.None, CalibrationState.None
  | CalibrationState.Editing, CalibrationState.Editing
  | CalibrationState.Begin, CalibrationState.Begin
  | CalibrationState.Begin, CalibrationState.None
  | CalibrationState.Begin, CalibrationState.Rotation
  | CalibrationState.Rotation, CalibrationState.Rotation
  | CalibrationState.Rotation, CalibrationState.None
  | CalibrationState.Rotation, CalibrationState.Translation
  | CalibrationState.Translation, CalibrationState.Translation
  | CalibrationState.Translation, CalibrationState.None => true
  | _, _ => false
  end.

(** ** Whole calibration runs *)

Section WholeRuns.

Context {D : Type} {SD : Scalar D}.
Local Open Scope dbl_scope.

(** Each tick comes at least the debounce interval after the one before
    it, the first after [last]. *)
Fixpoint spaced (last : D) (ticks : list (VRSystem_t D * D)) : Prop :=
  match ticks with
  | [] => True
  | tk :: rest => (snd tk - last <? lit_0_05) = false /\ spaced (snd tk) rest
  end.

(** The time of the last of the ticks, [last] when there is none. *)
Definition last_time (last : D) (ticks : list (VRSystem_t D * D)) : D :=
  fold_left (fun _ tk => snd tk) ticks last.

(** During the tick the runtime is there and tracks both devices. *)
Definition tracking_both (reference target : Z) (tk : VRSystem_t D * D) : Prop :=
  VRSystem (fst tk) = true /\ tracked (fst tk) reference /\ tracked (fst tk) target.

(** The sample the tick yields for the two devices. *)
Definition sample_for (reference target : Z) (tk : VRSystem_t D * D) : Sample D :=
  Sample_of
    (Pose_of_HmdMatrix34 (mDeviceToAbsoluteTracking
       (GetDeviceToAbsoluteTrackingPose (fst tk) (Z.to_nat reference))))
    (Pose_of_HmdMatrix34 (mDeviceToAbsoluteTracking
       (GetDeviceToAbsoluteTrackingPose (fst tk) (Z.to_nat target)))).

End WholeRuns.

(** Ticks of the still scene at the whole seconds [first], [first + 1],
    ..., [count] of them. *)
Definition still_ticks (first count : nat) : list (VRSystem_t float * float) :=
  map (fun i => (@vr_tracked float (@float_Scalar libm_still), float_of_Z (Z.of_nat i)))
      (seq first count).

(** * Properties *)

Unset Implicit Arguments.

(** ** The engine, over any scalar *)

Section EngineFacts.

Context {D : Type} {SD : Scalar D}.
Variable E : Extern D.
Local Open Scope dbl_scope.

Lemma pose_at_in_array (ctx : CalibrationContext D) (id : Z) :
  in_array id -> pose_at ctx id = Some (devicePoses ctx (Z.to_nat id)).
Proof.
  unfold in_array, pose_at. intros [Hlo Hhi].
  apply Z.leb_le in Hlo. apply Z.ltb_lt in Hhi.
  now rewrite Hlo, Hhi.
Qed.

Lemma to_uint32_in_array (id : Z) : in_array id -> to_uint32 id = id.
Proof.
  unfold in_array, to_uint32, k_unMaxTrackedDeviceCount. intros H.
  apply Z.mod_small. lia.
Qed.

Lemma tick_debounced vr time (m : Machine D) :
  (time - timeLastTick (CalCtx m) <? lit_0_05) = true ->
  CalibrationTick E vr time m = Some m.
Proof.
  unfold CalibrationTick. intros ->. now destruct (negb (VRSystem vr)).
Qed.

Lemma tick_without_runtime vr time (m : Machine D) :
  VRSystem vr = false -> CalibrationTick E vr time m = Some m.
Proof. unfold CalibrationTick. now intros ->. Qed.

Lemma tick_processed vr time (m : Machine D) :
  VRSystem vr = true ->
  (time - timeLastTick (CalCtx m) <? lit_0_05) = false ->
  CalibrationTick E vr time m = TickProcess E vr time m.
Proof. unfold CalibrationTick. now intros -> ->. Qed.

(** A tick either returns the machine as it is or is processed. *)
Lemma tick_cases vr time (m : Machine D) :
  CalibrationTick E vr time m = Some m \/
  CalibrationTick E vr time m = TickProcess E vr time m.
Proof.
  unfold CalibrationTick.
  destruct (negb (VRSystem vr)); [now left|].
  destruct (_ <? _); [now left | now right].
Qed.

(** *** The acquisition gate *)

Lemma CollectSample_tracked (ctx : CalibrationContext D) :
  in_array (referenceID ctx) -> in_array (targetID ctx) ->
  bPoseIsValid (devicePoses ctx (Z.to_nat (referenceID ctx))) = true ->
  bPoseIsValid (devicePoses ctx (Z.to_nat (targetID ctx))) = true ->
  CollectSample ctx =
  Some (ctx,
        Sample_of
          (Pose_of_HmdMatrix34 (mDeviceToAbsoluteTracking
             (devicePoses ctx (Z.to_nat (referenceID ctx)))))
          (Pose_of_HmdMatrix34 (mDeviceToAbsoluteTracking
             (devicePoses ctx (Z.to_nat (targetID ctx)))))).
Proof.
  intros Hr Ht Vr Vt. unfold CollectSample.
  rewrite (pose_at_in_array ctx _ Hr), (pose_at_in_array ctx _ Ht), Vr, Vt.
  reflexivity.
Qed.

(** Whatever [CollectSample] returns, an invalid sample comes with the state
    set to [None], and a valid one leaves the context as it was. *)
Lemma CollectSample_inv (ctx ctx' : CalibrationContext D) (s : Sample D) :
  CollectSample ctx = Some (ctx', s) ->
  (Sample_valid s = true /\ ctx' = ctx) \/
  (s = Sample_default /\ state ctx' = CalibrationState.None
   /\ timeLastTick ctx' = timeLastTick ctx).
Proof.
  unfold CollectSample.
  destruct (pose_at ctx (referenceID ctx)) as [pr|]; [|discriminate].
  destruct (pose_at ctx (targetID ctx)) as [pt|]; [|discriminate].
  destruct (bPoseIsValid pr), (bPoseIsValid pt); simpl; intros [= <- <-]; auto.
Qed.

Lemma CollectSample_lost (ctx : CalibrationContext D) :
  in_array (referenceID ctx) -> in_array (targetID ctx) ->
  bPoseIsValid (devicePoses ctx (Z.to_nat (referenceID ctx))) = false \/
  bPoseIsValid (devicePoses ctx (Z.to_nat (targetID ctx))) = false ->
  exists ctx',
    CollectSample ctx = Some (ctx', Sample_default)
    /\ state ctx' = CalibrationState.None
    /\ timeLastTick ctx' = timeLastTick ctx
    /\ referenceID ctx' = referenceID ctx
    /\ targetID ctx' = targetID ctx.
Proof.
  intros Hr Ht Hlost. unfold CollectSample.
  rewrite (pose_at_in_array ctx _ Hr), (pose_at_in_array ctx _ Ht).
  destruct (bPoseIsValid (devicePoses ctx (Z.to_nat (referenceID ctx)))),
           (bPoseIsValid (devicePoses ctx (Z.to_nat (targetID ctx))));
    simpl; try (destruct Hlost; discriminate);
    eexists; repeat split.
Qed.

(** C9: [StartCalibration] sets the state to [Begin], the wanted update
    interval to zero and the message buffer to the empty string, whatever
    the context it is called on; the state it is called in has no influence
    on the result, be it [Rotation], [Translation] or any other. *)
Theorem StartCalibration_unconditional (ctx : CalibrationContext D) :
  state (StartCalibration ctx) = CalibrationState.Begin
  /\ wantedUpdateInterval (StartCalibration ctx) = of_Z 0
  /\ messages (StartCalibration ctx) = ""%string
  /\ (forall s, StartCalibration (set_state ctx s) = StartCalibration ctx).
Proof. repeat split. Qed.

(** *** Only valid samples enter the accumulator *)

Lemma TickSample_samples_valid (m m' : Machine D) ctx :
  TickSample E m ctx = Some m' ->
  Forall (fun s => Sample_valid s = true) (samples m) ->
  Forall (fun s => Sample_valid s = true) (samples m').
Proof.
  unfold TickSample. intros Htick Hall.
  destruct (CollectSample ctx) as [[ctx1 s]|]; [|discriminate].
  destruct (Sample_valid s) eqn:Hs; simpl in Htick.
  - assert (Hgrown : Forall (fun s => Sample_valid s = true) (samples m ++ [s])).
    { apply Forall_app. split; [assumption|]. now constructor. }
    destruct (List.length (samples m ++ [s]) =? totalSamples)%nat.
    + destruct (state ctx1);
        injection Htick as <-; simpl; constructor.
    + injection Htick as <-. exact Hgrown.
  - injection Htick as <-. exact Hall.
Qed.

Lemma TickBegin_samples (m m' : Machine D) ctx :
  TickBegin m ctx = Some m' -> samples m' = samples m.
Proof.
  unfold TickBegin. intros Htick.
  destruct (begin_check _ _ _ _) as [st|]; [|discriminate].
  destruct (begin_check _ _ _ st) as [[ctx1 ok]|]; [|discriminate].
  destruct ok; injection Htick as <-; reflexivity.
Qed.

Lemma TickNone_samples vr time (m : Machine D) ctx :
  samples (TickNone vr time m ctx) = samples m.
Proof.
  unfold TickNone. destruct (negb _); [reflexivity|].
  now destruct (_ >=? _).
Qed.

Lemma TickEditing_samples vr (m : Machine D) ctx :
  samples (TickEditing vr m ctx) = samples m.
Proof. unfold TickEditing. now destruct (negb _). Qed.

Lemma tick_samples_valid vr time (m m' : Machine D) :
  CalibrationTick E vr time m = Some m' ->
  Forall (fun s => Sample_valid s = true) (samples m) ->
  Forall (fun s => Sample_valid s = true) (samples m').
Proof.
  intros Htick Hall.
  destruct (tick_cases vr time m) as [Hsame | Hproc]; rewrite Htick in *.
  - now injection Hsame as ->.
  - symmetry in Hproc. unfold TickProcess in Hproc.
    destruct (state _).
    + injection Hproc as <-. now rewrite TickNone_samples.
    + injection Hproc as <-. now rewrite TickEditing_samples.
    + now rewrite (TickBegin_samples _ _ _ Hproc).
    + eapply TickSample_samples_valid; eassumption.
    + eapply TickSample_samples_valid; eassumption.
Qed.

Lemma step_samples_valid (m m' : Machine D) :
  step E m m' ->
  Forall (fun s => Sample_valid s = true) (samples m) ->
  Forall (fun s => Sample_valid s = true) (samples m').
Proof.
  intros Hstep. destruct Hstep as [vr time m m' Htick | m | m ctx]; simpl; auto.
  eapply tick_samples_valid; eassumption.
Qed.

(** C8: in every reachable state of the machine, every sample held in the
    accumulator has its validity flag set. *)
Theorem accumulator_holds_valid_samples (m : Machine D) :
  reachable E m -> Forall (fun s => Sample_valid s = true) (samples m).
Proof.
  induction 1 as [ctx | m m' _ IH Hstep].
  - constructor.
  - eapply step_samples_valid; eassumption.
Qed.

(** *** The sampling phases *)

Lemma TickProcess_sampling vr time (m : Machine D) :
  state (CalCtx m) = CalibrationState.Rotation \/
  state (CalCtx m) = CalibrationState.Translation ->
  TickProcess E vr time m = TickSample E m (ticked vr time (CalCtx m)).
Proof.
  unfold TickProcess, ticked. simpl. now intros [-> | ->].
Qed.

Lemma CollectSample_ticked vr time (ctx : CalibrationContext D) :
  tracked vr (referenceID ctx) -> tracked vr (targetID ctx) ->
  CollectSample (ticked vr time ctx) = Some (ticked vr time ctx, sample_of_tick vr ctx).
Proof.
  intros [Hr Vr] [Ht Vt].
  now rewrite CollectSample_tracked.
Qed.

(** C5: in [Rotation], the tick whose sample brings the accumulator to 100
    runs the rotation calibrator on the batch, stores its result, sends the
    rotation offset to the target device and enables its offsets, empties
    the accumulator and moves to [Translation]; a tick whose sample leaves
    the accumulator below 100 only appends the sample: the state stays
    [Rotation], the stored rotation is unchanged and the actuator receives
    nothing. *)
Theorem rotation_completes_at_100 vr time (m : Machine D) :
  VRSystem vr = true ->
  (time - timeLastTick (CalCtx m) <? lit_0_05) = false ->
  state (CalCtx m) = CalibrationState.Rotation ->
  tracked vr (referenceID (CalCtx m)) ->
  tracked vr (targetID (CalCtx m)) ->
  let ctx := Message (ticked vr time (CalCtx m)) "." in
  let batch := samples m ++ [sample_of_tick vr (CalCtx m)] in
  let cal := CalibrateRotation E (Message ctx LF) batch in
  exists m',
    CalibrationTick E vr time m = Some m'
    /\ (List.length batch = 100%nat ->
        state (CalCtx m') = CalibrationState.Translation
        /\ calibratedRotation (CalCtx m') = snd cal
        /\ CalCtx m' = set_state (set_calibratedRotation (fst cal) (snd cal))
                         CalibrationState.Translation
        /\ samples m' = []
        /\ InputEmulator m' =
           InputEmulator m ++
           [ setWorldFromDriverRotationOffset (targetID (CalCtx m))
               (VRRotationQuat (snd cal));
             enableDeviceOffsets (targetID (CalCtx m)) true ])
    /\ ((List.length batch < 100)%nat ->
        state (CalCtx m') = CalibrationState.Rotation
        /\ calibratedRotation (CalCtx m') = calibratedRotation (CalCtx m)
        /\ CalCtx m' = ctx
        /\ samples m' = batch
        /\ InputEmulator m' = InputEmulator m).
Proof.
  intros Hvr Htime Hstate Href Htarget ctx batch cal.
  rewrite (tick_processed _ _ _ Hvr Htime).
  rewrite TickProcess_sampling by now left.
  unfold TickSample. rewrite CollectSample_ticked by assumption.
  cbn [Sample_valid sample_of_tick Sample_of negb].
  fold batch. fold ctx.
  destruct (List.length batch =? totalSamples)%nat eqn:Hlen.
  - apply Nat.eqb_eq in Hlen.
    assert (Hst : state (Message ctx LF) = CalibrationState.Rotation) by exact Hstate.
    rewrite Hst. fold cal.
    destruct cal as [ctx' euler] eqn:Hcal.
    eexists. split; [reflexivity|]. split.
    + intros _. cbn.
      assert (Hid : targetID ctx' = targetID (CalCtx m)).
      { replace ctx' with (fst cal) by now rewrite Hcal. reflexivity. }
      rewrite Hid, (to_uint32_in_array _ (proj1 Htarget)).
      repeat split.
    + unfold totalSamples in Hlen. lia.
  - apply Nat.eqb_neq in Hlen.
    eexists. split; [reflexivity|]. split.
    + unfold totalSamples in Hlen. intros; contradiction.
    + intros _. cbn. repeat split; assumption.
Qed.

(** *** The entry gate *)

Lemma string_app_assoc (a b c : string) : ((a ++ b) ++ c = a ++ b ++ c)%string.
Proof. induction a as [|ch a IH]; simpl; [reflexivity | now rewrite IH]. Qed.

Lemma begin_check_selectable missing untracked vr id (ctx : CalibrationContext D) ok :
  devicePoses ctx = GetDeviceToAbsoluteTrackingPose vr ->
  selectable id ->
  begin_check missing untracked id (ctx, ok) =
  Some (if ready vr id then ctx
        else Message ctx (device_diagnostic missing untracked vr id),
        ok && ready vr id).
Proof.
  intros Hposes Hsel. unfold begin_check, ready, device_diagnostic.
  destruct Hsel as [-> | Hin].
  - simpl. now rewrite andb_false_r.
  - assert (Hne : (id =? -1)%Z = false).
    { apply Z.eqb_neq. destruct Hin. lia. }
    rewrite Hne, (pose_at_in_array ctx _ Hin), Hposes. simpl.
    fold (tracking vr id).
    destruct (tracking vr id); simpl;
      [now rewrite andb_true_r | now rewrite andb_false_r].
Qed.

Lemma string_app_nil_r (a : string) : (a ++ "" = a)%string.
Proof. induction a as [|ch a IH]; simpl; [reflexivity | now rewrite IH]. Qed.

Lemma device_diagnostic_ready missing untracked (vr : VRSystem_t D) id :
  ready vr id = true -> device_diagnostic missing untracked vr id = ""%string.
Proof.
  unfold ready, device_diagnostic.
  destruct (id =? -1)%Z; [discriminate|]. simpl. now intros ->.
Qed.

Lemma device_diagnostic_not_ready missing untracked (vr : VRSystem_t D) id :
  ready vr id = false -> device_diagnostic missing untracked vr id <> ""%string.
Proof.
  unfold ready, device_diagnostic.
  destruct (id =? -1)%Z; simpl.
  - intros _. destruct missing; discriminate.
  - intros ->. destruct untracked; discriminate.
Qed.

Lemma string_app_not_nil (a b : string) :
  a <> ""%string \/ b <> ""%string -> (a ++ b)%string <> ""%string.
Proof.
  destruct a; simpl; [|discriminate]. intros [H | H]; [contradiction | exact H].
Qed.

(** The context [begin_check] returns differs from the one it is given in
    the message buffer only. *)
Lemma begin_check_messages missing untracked vr id (ctx : CalibrationContext D) ok :
  devicePoses ctx = GetDeviceToAbsoluteTrackingPose vr ->
  selectable id ->
  exists ctx',
    begin_check missing untracked id (ctx, ok) = Some (ctx', ok && ready vr id)
    /\ ctx' = set_messages ctx (messages ctx')
    /\ messages ctx' = (messages ctx ++ device_diagnostic missing untracked vr id)%string.
Proof.
  intros Hposes Hsel.
  rewrite (begin_check_selectable _ _ _ _ _ ok Hposes Hsel).
  destruct (ready vr id) eqn:Hready.
  - exists ctx. repeat split.
    + now destruct ctx.
    + now rewrite device_diagnostic_ready, string_app_nil_r.
  - eexists. repeat split.
Qed.

(** What [Begin] does when both identifiers are selectable. *)
Lemma TickBegin_selectable vr (m : Machine D) (ctx : CalibrationContext D) :
  devicePoses ctx = GetDeviceToAbsoluteTrackingPose vr ->
  selectable (referenceID ctx) ->
  selectable (targetID ctx) ->
  exists m',
    TickBegin m ctx = Some m'
    /\ samples m' = samples m
    /\ timeLastTick (CalCtx m') = timeLastTick ctx
    /\ referenceID (CalCtx m') = referenceID ctx
    /\ targetID (CalCtx m') = targetID ctx
    /\ (ready vr (referenceID ctx) && ready vr (targetID ctx) = false ->
        state (CalCtx m') = CalibrationState.None
        /\ messages (CalCtx m') =
           (((messages ctx
              ++ device_diagnostic "Missing reference device"
                   "Reference device is not tracking" vr (referenceID ctx))
             ++ device_diagnostic "Missing target device"
                  "Target device is not tracking" vr (targetID ctx))
            ++ ("Aborting calibration!" ++ LF))%string
        /\ InputEmulator m' = InputEmulator m)
    /\ (ready vr (referenceID ctx) && ready vr (targetID ctx) = true ->
        state (CalCtx m') = CalibrationState.Rotation
        /\ InputEmulator m' =
           ResetAndDisableOffsets (to_uint32 (targetID ctx)) (InputEmulator m)).
Proof.
  intros Hposes Href Htarget. unfold TickBegin.
  destruct (begin_check_messages "Missing reference device"
              "Reference device is not tracking" vr _ ctx true Hposes Href)
    as (ctx1 & -> & Hctx1 & Hmsg1).
  assert (Hposes1 : devicePoses ctx1 = GetDeviceToAbsoluteTrackingPose vr)
    by now rewrite Hctx1.
  destruct (begin_check_messages "Missing target device"
              "Target device is not tracking" vr _ ctx1
              (true && ready vr (referenceID ctx)) Hposes1 Htarget)
    as (ctx2 & -> & Hctx2 & Hmsg2).
  cbn [andb].
  destruct (ready vr (referenceID ctx) && ready vr (targetID ctx));
    cbn [negb]; eexists; (split; [reflexivity|]);
    cbn [CalCtx samples InputEmulator]; rewrite Hctx2, Hctx1;
    cbn [Message set_state set_messages set_wantedUpdateInterval state messages
         timeLastTick referenceID targetID];
    repeat split; try discriminate.
  now rewrite Hmsg2, Hmsg1.
Qed.

(** A tick leaves an idle machine idle. *)
Lemma tick_stays_idle vr time (m m' : Machine D) :
  CalibrationTick E vr time m = Some m' ->
  state (CalCtx m) = CalibrationState.None ->
  state (CalCtx m') = CalibrationState.None.
Proof.
  intros Htick Hidle.
  destruct (tick_cases vr time m) as [Hsame | Hproc]; rewrite Htick in *.
  - now injection Hsame as ->.
  - symmetry in Hproc. unfold TickProcess in Hproc. simpl in Hproc.
    rewrite Hidle in Hproc. injection Hproc as <-.
    unfold TickNone. simpl.
    destruct (negb _); [assumption|].
    now destruct (_ <=? _).
Qed.

Lemma run_stays_idle ticks : forall (m m' : Machine D),
  run E ticks m = Some m' ->
  state (CalCtx m) = CalibrationState.None ->
  state (CalCtx m') = CalibrationState.None.
Proof.
  induction ticks as [|[vr time] rest IH]; simpl; intros m m' Hrun Hidle.
  - now injection Hrun as <-.
  - destruct (CalibrationTick E vr time m) as [m1|] eqn:Htick; [|discriminate].
    eapply IH; [eassumption|]. eapply tick_stays_idle; eassumption.
Qed.

(** C4: after [StartCalibration()], the next processed tick checks both
    devices.  If either identifier is unset or its device is not tracked,
    the tick logs the line naming that device, then the abort line, and
    moves to [None]; the actuator receives nothing and no later tick leaves
    [None], so [Rotation] is never reached.  If both are set and tracked, the
    tick resets and disables the target device's offsets and moves to
    [Rotation]. *)
Theorem begin_gate vr time (m : Machine D) :
  VRSystem vr = true ->
  (time - timeLastTick (CalCtx m) <? lit_0_05) = false ->
  selectable (referenceID (CalCtx m)) ->
  selectable (targetID (CalCtx m)) ->
  let ref := referenceID (CalCtx m) in
  let target := targetID (CalCtx m) in
  let diagnostic :=
    (device_diagnostic "Missing reference device" "Reference device is not tracking" vr ref
     ++ device_diagnostic "Missing target device" "Target device is not tracking" vr target)%string in
  exists m',
    CalibrationTick E vr time (start m) = Some m'
    /\ (ready vr ref && ready vr target = false ->
        state (CalCtx m') = CalibrationState.None
        /\ diagnostic <> ""%string
        /\ messages (CalCtx m') = (diagnostic ++ "Aborting calibration!" ++ LF)%string
        /\ InputEmulator m' = InputEmulator m
        /\ forall ticks m'', run E ticks m' = Some m'' ->
             state (CalCtx m'') = CalibrationState.None)
    /\ (ready vr ref && ready vr target = true ->
        state (CalCtx m') = CalibrationState.Rotation
        /\ InputEmulator m' =
           InputEmulator m ++
           [ setWorldFromDriverRotationOffset target
               (mkHmdQuaternion (of_Z 1) (of_Z 0) (of_Z 0) (of_Z 0));
             setWorldFromDriverTranslationOffset target
               (mkHmdVector3d (of_Z 0) (of_Z 0) (of_Z 0));
             enableDeviceOffsets target false ]).
Proof.
  intros Hvr Htime Href Htarget ref target diagnostic.
  rewrite tick_processed by assumption.
  unfold TickProcess.
  cbn [start CalCtx StartCalibration state set_state set_wantedUpdateInterval
       set_messages set_timeLastTick set_devicePoses].
  match goal with |- context [TickBegin ?m0 ?c0] =>
    destruct (TickBegin_selectable vr m0 c0 eq_refl Href Htarget)
      as (m' & -> & _ & _ & _ & _ & Habort & Hgo)
  end.
  exists m'. split; [reflexivity|]. split.
  - intros Hnot. destruct (Habort Hnot) as (Hstate & Hmsg & Hemu).
    split; [exact Hstate|]. split; [|split; [exact Hmsg|split; [exact Hemu|]]].
    + apply string_app_not_nil.
      apply andb_false_iff in Hnot.
      destruct Hnot as [Hnot | Hnot]; [left | right];
        now apply device_diagnostic_not_ready.
    + intros ticks m'' Hrun. now apply (run_stays_idle _ _ _ Hrun).
  - intros Hready. destruct (Hgo Hready) as (Hstate & Hemu).
    split; [exact Hstate|].
    assert (Hin : in_array target).
    { destruct Htarget as [Hun | Hin]; [|exact Hin].
      apply andb_true_iff in Hready. destruct Hready as [_ Rt].
      unfold ready in Rt. fold target in Hun. rewrite Hun in Rt. discriminate. }
    change (InputEmulator m' = ResetAndDisableOffsets target (InputEmulator m)).
    rewrite <- (to_uint32_in_array target Hin) at 1. exact Hemu.
Qed.

(** *** Tracking loss during a sampling phase *)

Lemma tracked_ready (vr : VRSystem_t D) id : tracked vr id -> ready vr id = true.
Proof.
  intros [Hin Htr]. unfold ready. rewrite Htr.
  destruct (Z.eqb_spec id (-1)) as [-> | _]; [|reflexivity].
  destruct Hin. lia.
Qed.

(** A tick that finds a device untracked while sampling sets the state to
    [None] and returns before the accumulator is touched. *)
Lemma tick_tracking_lost vr time (m : Machine D) :
  VRSystem vr = true ->
  (time - timeLastTick (CalCtx m) <? lit_0_05) = false ->
  state (CalCtx m) = CalibrationState.Rotation \/
  state (CalCtx m) = CalibrationState.Translation ->
  in_array (referenceID (CalCtx m)) ->
  in_array (targetID (CalCtx m)) ->
  tracking vr (referenceID (CalCtx m)) = false \/
  tracking vr (targetID (CalCtx m)) = false ->
  exists m',
    CalibrationTick E vr time m = Some m'
    /\ state (CalCtx m') = CalibrationState.None
    /\ samples m' = samples m
    /\ InputEmulator m' = InputEmulator m
    /\ timeLastTick (CalCtx m') = time
    /\ referenceID (CalCtx m') = referenceID (CalCtx m)
    /\ targetID (CalCtx m') = targetID (CalCtx m).
Proof.
  intros Hvr Htime Hstate Href Htarget Hlost.
  rewrite tick_processed by assumption.
  rewrite TickProcess_sampling by assumption.
  unfold TickSample.
  destruct (CollectSample_lost (ticked vr time (CalCtx m)) Href Htarget Hlost)
    as (ctx' & -> & Hidle & Htl & Hr & Ht).
  cbn [Sample_valid Sample_default negb].
  eexists. split; [reflexivity|]. cbn [CalCtx samples InputEmulator].
  repeat split; assumption.
Qed.

(** C1, as the code has it: a tick that loses tracking in [Rotation] returns
    the machine to [None] but leaves the partial batch in the accumulator,
    and neither [StartCalibration] nor the [Begin] tick empties it: the next
    run enters [Rotation] with the samples of the aborted one. *)
Theorem partial_batch_survives_tracking_loss vr1 t1 vr2 t2 (m : Machine D) :
  VRSystem vr1 = true ->
  (t1 - timeLastTick (CalCtx m) <? lit_0_05) = false ->
  state (CalCtx m) = CalibrationState.Rotation ->
  in_array (referenceID (CalCtx m)) ->
  in_array (targetID (CalCtx m)) ->
  tracking vr1 (referenceID (CalCtx m)) = false \/
  tracking vr1 (targetID (CalCtx m)) = false ->
  VRSystem vr2 = true ->
  (t2 - t1 <? lit_0_05) = false ->
  tracked vr2 (referenceID (CalCtx m)) ->
  tracked vr2 (targetID (CalCtx m)) ->
  exists m1 m2,
    CalibrationTick E vr1 t1 m = Some m1
    /\ state (CalCtx m1) = CalibrationState.None
    /\ samples m1 = samples m
    /\ CalibrationTick E vr2 t2 (start m1) = Some m2
    /\ state (CalCtx m2) = CalibrationState.Rotation
    /\ samples m2 = samples m.
Proof.
  intros Hvr1 Ht1 Hstate Href Htarget Hlost Hvr2 Ht2 Hr2 Htg2.
  destruct (tick_tracking_lost vr1 t1 m Hvr1 Ht1 (or_introl Hstate) Href Htarget Hlost)
    as (m1 & Htick1 & Hidle & Hsamples1 & _ & Htl & Hrid & Htid).
  exists m1.
  assert (Hproc : CalibrationTick E vr2 t2 (start m1) = TickProcess E vr2 t2 (start m1)).
  { apply tick_processed; [assumption|].
    cbn [start CalCtx StartCalibration timeLastTick set_state
         set_wantedUpdateInterval set_messages].
    now rewrite Htl. }
  rewrite Hproc. unfold TickProcess.
  cbn [start CalCtx StartCalibration state set_state set_wantedUpdateInterval
       set_messages set_timeLastTick set_devicePoses].
  match goal with |- context [TickBegin ?m0 ?c0] =>
    assert (Hsr : selectable (referenceID c0)) by (right; cbn; now rewrite Hrid);
    assert (Hst : selectable (targetID c0)) by (right; cbn; now rewrite Htid);
    destruct (TickBegin_selectable vr2 m0 c0 eq_refl Hsr Hst)
      as (m2 & -> & Hsamples2 & _ & _ & _ & _ & Hgo)
  end.
  exists m2.
  assert (Hready : ready vr2 (referenceID (CalCtx m1)) && ready vr2 (targetID (CalCtx m1)) = true).
  { rewrite Hrid, Htid, !tracked_ready by assumption. reflexivity. }
  repeat split; try assumption.
  - exact (proj1 (Hgo Hready)).
  - rewrite Hsamples2. exact Hsamples1.
Qed.

(** *** The pairs the calibrators visit *)

Lemma index_pairs_S (n : nat) :
  index_pairs (S n) = index_pairs n ++ map (fun j => (n, j)) (seq 0 n).
Proof.
  unfold index_pairs. rewrite seq_S, flat_map_app. simpl.
  now rewrite app_nil_r.
Qed.

Lemma index_pairs_In (n i j : nat) :
  In (i, j) (index_pairs n) <-> (j < i < n)%nat.
Proof.
  unfold index_pairs. rewrite in_flat_map. split.
  - intros (i' & Hi & Hj). apply in_map_iff in Hj.
    destruct Hj as (j' & [= <- <-] & Hj).
    apply in_seq in Hi. apply in_seq in Hj. lia.
  - intros [Hj Hi]. exists i. split.
    + apply in_seq. lia.
    + apply in_map_iff. exists j. split; [reflexivity|]. apply in_seq. lia.
Qed.

Lemma index_pairs_NoDup (n : nat) : NoDup (index_pairs n).
Proof.
  induction n as [|n IH]; [constructor|].
  rewrite index_pairs_S. apply NoDup_app. repeat split.
  - exact IH.
  - apply NoDup_map_NoDup_ForallPairs; [|apply seq_NoDup].
    intros a b _ _ [= ->]. reflexivity.
  - intros [i j] Hold Hnew. apply index_pairs_In in Hold.
    apply in_map_iff in Hnew. destruct Hnew as (j' & [= <- <-] & _). lia.
Qed.

Lemma index_pairs_length_double (n : nat) :
  (2 * List.length (index_pairs n) = n * (n - 1))%nat.
Proof.
  induction n as [|n IH]; [reflexivity|].
  rewrite index_pairs_S, length_app, length_map, length_seq.
  replace (S n - 1)%nat with n by lia.
  destruct n as [|n]; [reflexivity|].
  replace (S n - 1)%nat with n in IH by lia. nia.
Qed.

Lemma index_pairs_length (n : nat) :
  List.length (index_pairs n) = (n * (n - 1) / 2)%nat.
Proof.
  rewrite <- index_pairs_length_double.
  rewrite Nat.mul_comm, Nat.div_mul; [reflexivity | discriminate].
Qed.

(** A loop that pushes a fixed number of entries for each element. *)
Lemma flat_map_length_const {A B} (f : A -> list B) (k : nat) (l : list A) :
  (forall a, List.length (f a) = k) ->
  List.length (flat_map f l) = (k * List.length l)%nat.
Proof.
  intros Hk. induction l as [|a l IH]; simpl; [lia|].
  rewrite length_app, Hk, IH. lia.
Qed.

Lemma flat_map_two_nth_error {A B} (g h : A -> B) (l : list A) :
  forall k a, nth_error l k = Some a ->
    nth_error (flat_map (fun a => [g a; h a]) l) (2 * k) = Some (g a)
    /\ nth_error (flat_map (fun a => [g a; h a]) l) (2 * k + 1) = Some (h a).
Proof.
  induction l as [|b l IH]; intros [|k] a Hk; try discriminate.
  - injection Hk as <-. split; reflexivity.
  - simpl in Hk. destruct (IH k a Hk) as [Hg Hh].
    replace (2 * S k)%nat with (S (S (2 * k))) by lia.
    replace (S (S (2 * k)) + 1)%nat with (S (S (2 * k + 1))) by lia.
    split; assumption.
Qed.

(** C7: for a batch of N samples the translation calibrator visits each
    unordered pair of distinct samples once, pushes two 3-equation blocks for
    it (the reference's, then the target's), which makes a system of
    3*2*(N*(N-1)/2) equations, and returns the least-squares solution of that
    system multiplied by 100. *)
Theorem translation_system_shape ctx (batch : list (Sample D)) :
  let N := List.length batch in
  let pairs := index_pairs N in
  let deltas := TranslationDeltas batch in
  (forall i j, In (i, j) pairs <-> (j < i < N)%nat)
  /\ NoDup pairs
  /\ List.length pairs = (N * (N - 1) / 2)%nat
  /\ (forall k i j, nth_error pairs k = Some (i, j) ->
        nth_error deltas (2 * k) =
          Some (translation_block (fun s => rot (Sample_ref s))
                  (at_ batch i) (at_ batch j))
        /\ nth_error deltas (2 * k + 1) =
          Some (translation_block (fun s => rot (Sample_target s))
                  (at_ batch i) (at_ batch j)))
  /\ List.length deltas = (2 * (N * (N - 1) / 2))%nat
  /\ List.length (coefficients deltas) = (3 * 2 * (N * (N - 1) / 2))%nat
  /\ List.length (constants deltas) = (3 * 2 * (N * (N - 1) / 2))%nat
  /\ snd (CalibrateTranslation E ctx batch) =
     vscale (bdcSvd_solve E (coefficients deltas) (constants deltas)) (of_Z 100).
Proof.
  intros N pairs deltas.
  assert (Hdeltas : List.length deltas = (2 * (N * (N - 1) / 2))%nat).
  { unfold deltas, TranslationDeltas.
    rewrite (flat_map_length_const _ 2) by reflexivity.
    now rewrite index_pairs_length. }
  split; [intros i j; apply index_pairs_In|].
  split; [apply index_pairs_NoDup|].
  split; [apply index_pairs_length|].
  split.
  { intros k i j Hk.
    exact (flat_map_two_nth_error
             (fun ij => translation_block (fun s => rot (Sample_ref s))
                          (at_ batch (fst ij)) (at_ batch (snd ij)))
             (fun ij => translation_block (fun s => rot (Sample_target s))
                          (at_ batch (fst ij)) (at_ batch (snd ij)))
             pairs k (i, j) Hk). }
  split; [exact Hdeltas|].
  split; [|split; [|reflexivity]].
  - unfold coefficients.
    rewrite (flat_map_length_const _ 3) by reflexivity. rewrite Hdeltas. lia.
  - unfold constants.
    rewrite (flat_map_length_const _ 3) by reflexivity. rewrite Hdeltas. lia.
Qed.

End EngineFacts.

(** A processed tick records its time, provided [SaveProfile] leaves the
    tick clock alone. *)
Section TickClock.

Context {D : Type} {SD : Scalar D}.
Variable E : Extern D.
Hypothesis SaveProfile_clock :
  forall ctx, timeLastTick (SaveProfile E ctx) = timeLastTick ctx.
Local Open Scope dbl_scope.

Lemma begin_check_clock missing untracked id (ctx ctx' : CalibrationContext D) ok ok' :
  begin_check missing untracked id (ctx, ok) = Some (ctx', ok') ->
  timeLastTick ctx' = timeLastTick ctx.
Proof.
  unfold begin_check.
  destruct (id =? -1)%Z; [now intros [= <- <-]|].
  destruct (pose_at ctx id) as [p|]; [|discriminate].
  destruct (negb (bPoseIsValid p)); now intros [= <- <-].
Qed.

Lemma TickSample_clock (m m' : Machine D) ctx :
  TickSample E m ctx = Some m' -> timeLastTick (CalCtx m') = timeLastTick ctx.
Proof.
  unfold TickSample.
  destruct (CollectSample ctx) as [[ctx1 s]|] eqn:Hc; [|discriminate].
  apply CollectSample_inv in Hc.
  destruct Hc as [[Hs ->] | (-> & _ & Hclock)].
  - rewrite Hs. cbn [negb]. destruct (_ =? _)%nat; [|now intros [= <-]].
    cbn [state Message set_messages].
    destruct (state ctx); intros [= <-]; try reflexivity.
    cbn. now rewrite SaveProfile_clock.
  - cbn. intros [= <-]. exact Hclock.
Qed.

Lemma TickProcess_clock vr time (m m' : Machine D) :
  TickProcess E vr time m = Some m' -> timeLastTick (CalCtx m') = time.
Proof.
  unfold TickProcess.
  cbn [state set_devicePoses set_timeLastTick].
  destruct (state (CalCtx m)).
  - intros [= <-]. unfold TickNone. cbn [validProfile set_wantedUpdateInterval].
    destruct (negb _); [reflexivity|]. now destruct (_ <=? _).
  - intros [= <-]. unfold TickEditing. cbn [validProfile set_wantedUpdateInterval].
    now destruct (negb _).
  - unfold TickBegin.
    destruct (begin_check _ _ _ _) as [[ctx1 ok1]|] eqn:H1; [|discriminate].
    destruct (begin_check _ _ _ (ctx1, ok1)) as [[ctx2 ok2]|] eqn:H2; [|discriminate].
    apply begin_check_clock in H1, H2.
    destruct ok2; intros [= <-]; cbn; rewrite H2; exact H1.
  - intros H. now apply TickSample_clock in H.
  - intros H. now apply TickSample_clock in H.
Qed.

End TickClock.

(** ** The engine over the reals *)

Section OverTheReals.

Local Open Scope R_scope.

Lemma R_ltb_true (x y : R) : R_ltb x y = true <-> x < y.
Proof. unfold R_ltb. destruct (Rlt_dec x y); split; auto; discriminate. Qed.

Lemma R_ltb_false (x y : R) : R_ltb x y = false <-> y <= x.
Proof.
  unfold R_ltb. destruct (Rlt_dec x y); split; auto; try discriminate; lra.
Qed.

(** *** Delta samples *)

Lemma squaredNorm_nonneg (v : Vector3d R) : 0 <= squaredNorm v.
Proof. unfold squaredNorm. cbn. nra. Qed.

Lemma norm_above_positive (v : Vector3d R) (c : R) :
  0 <= c -> c < norm v -> 0 < squaredNorm v.
Proof.
  intros Hc Hnorm. unfold norm in Hnorm. cbn [dsqrt R_Scalar] in Hnorm.
  destruct (squaredNorm_nonneg v) as [Hpos | Hzero]; [exact Hpos|].
  rewrite <- Hzero, sqrt_0 in Hnorm. lra.
Qed.

Lemma normalize_positive (v : Vector3d R) :
  0 < squaredNorm v -> normalize v = vdiv v (norm v).
Proof.
  intros Hpos. unfold normalize. cbn [dltb of_Z R_Scalar].
  apply R_ltb_true in Hpos. now rewrite Hpos.
Qed.

Lemma norm_normalize (v : Vector3d R) :
  0 < squaredNorm v -> norm (normalize v) = 1.
Proof.
  intros Hpos. rewrite (normalize_positive v Hpos).
  assert (Hs : 0 < norm v) by (apply sqrt_lt_R0; exact Hpos).
  assert (Hss : norm v * norm v = squaredNorm v)
    by (apply sqrt_sqrt; lra).
  unfold norm at 1. cbn [dsqrt R_Scalar].
  replace (squaredNorm (vdiv v (norm v))) with 1; [apply sqrt_1|].
  destruct v as [x y z]. unfold norm, squaredNorm, vdiv in *. cbn in *.
  set (s := sqrt (x * x + y * y + z * z)) in *.
  assert (Hne : s <> 0) by lra.
  replace (x / s * (x / s) + y / s * (y / s) + z / s * (z / s))
    with ((x * x + y * y + z * z) / (s * s)) by (field; exact Hne).
  rewrite <- Hss. field. exact Hne.
Qed.

(** C2: the delta sample of two valid samples is valid exactly when both
    relative-rotation angles exceed 0.4 and both axis vectors have norm
    above 0.01 before normalisation; when it is valid, the two axes it
    carries are the raw axes divided by their norms and have norm one; when
    either angle is below 0.4 it is invalid. *)
Theorem delta_sample_validity (s1 s2 : Sample R) :
  Sample_valid s1 = true ->
  Sample_valid s2 = true ->
  let ds := DeltaRotationSamples s1 s2 in
  let refA := AngleFromRotationMatrix3 (delta_ref s1 s2) in
  let targetA := AngleFromRotationMatrix3 (delta_target s1 s2) in
  let ref_axis := AxisFromRotationMatrix3 (delta_ref s1 s2) in
  let target_axis := AxisFromRotationMatrix3 (delta_target s1 s2) in
  (DSample_valid ds = true <->
     refA > 4 / 10 /\ targetA > 4 / 10
     /\ norm ref_axis > 1 / 100 /\ norm target_axis > 1 / 100)
  /\ (DSample_valid ds = true ->
        DSample_ref ds = vdiv ref_axis (norm ref_axis)
        /\ DSample_target ds = vdiv target_axis (norm target_axis)
        /\ norm (DSample_ref ds) = 1
        /\ norm (DSample_target ds) = 1)
  /\ (refA < 4 / 10 \/ targetA < 4 / 10 -> DSample_valid ds = false).
Proof.
  intros _ _ ds refA targetA ref_axis target_axis.
  assert (Hiff : DSample_valid ds = true <->
                 refA > 4 / 10 /\ targetA > 4 / 10
                 /\ norm ref_axis > 1 / 100 /\ norm target_axis > 1 / 100).
  { unfold ds, DeltaRotationSamples. cbn [DSample_valid].
    fold refA targetA ref_axis target_axis.
    cbn [dltb lit_0_4 lit_0_01 R_Scalar].
    rewrite !andb_true_iff, !R_ltb_true. unfold Rgt. tauto. }
  split; [exact Hiff|]. split.
  - intros Hvalid. apply Hiff in Hvalid.
    destruct Hvalid as (_ & _ & Hr & Ht).
    assert (Hpr : 0 < squaredNorm ref_axis)
      by (apply (norm_above_positive _ (1 / 100)); lra).
    assert (Hpt : 0 < squaredNorm target_axis)
      by (apply (norm_above_positive _ (1 / 100)); lra).
    unfold ds, DeltaRotationSamples. cbn [DSample_ref DSample_target].
    fold ref_axis target_axis.
    repeat split.
    + now apply normalize_positive.
    + now apply normalize_positive.
    + now apply norm_normalize.
    + now apply norm_normalize.
  - intros Hbelow. apply not_true_is_false. intros Hvalid.
    apply Hiff in Hvalid. lra.
Qed.

(** *** The tick clock *)

Lemma tick_processed_R (E : Extern R) vr (time : R) (m : Machine R) :
  VRSystem vr = true ->
  time - timeLastTick (CalCtx m) >= 5 / 100 ->
  CalibrationTick E vr time m = TickProcess E vr time m.
Proof.
  intros Hvr Htime. apply tick_processed; [exact Hvr|].
  apply R_ltb_false. cbn. lra.
Qed.

Lemma tick_debounced_R (E : Extern R) vr (time : R) (m : Machine R) :
  time - timeLastTick (CalCtx m) < 5 / 100 ->
  CalibrationTick E vr time m = Some m.
Proof.
  intros Htime. apply tick_debounced. apply R_ltb_true. cbn. lra.
Qed.

(** C3: let a tick at time [t1] be processed.  A following tick whose time
    is less than 0.05s after [t1] returns the machine as it is; a following
    tick 0.06s or more after [t1] is processed.  In particular the tick 10ms
    later changes nothing and the tick 60ms later is processed. *)
Theorem tick_debounce (E : Extern R) vr1 vr2 (t1 t2 : R) (m m1 : Machine R) :
  (forall ctx, timeLastTick (SaveProfile E ctx) = timeLastTick ctx) ->
  VRSystem vr1 = true ->
  VRSystem vr2 = true ->
  t1 - timeLastTick (CalCtx m) >= 5 / 100 ->
  CalibrationTick E vr1 t1 m = Some m1 ->
  TickProcess E vr1 t1 m = Some m1
  /\ timeLastTick (CalCtx m1) = t1
  /\ (t2 - t1 < 5 / 100 -> CalibrationTick E vr2 t2 m1 = Some m1)
  /\ (t2 - t1 >= 6 / 100 ->
      CalibrationTick E vr2 t2 m1 = TickProcess E vr2 t2 m1)
  /\ CalibrationTick E vr2 (t1 + 1 / 100) m1 = Some m1
  /\ CalibrationTick E vr2 (t1 + 6 / 100) m1 = TickProcess E vr2 (t1 + 6 / 100) m1.
Proof.
  intros Hsave Hvr1 Hvr2 Ht1 Htick.
  rewrite (tick_processed_R E vr1 t1 m Hvr1 Ht1) in Htick.
  pose proof (TickProcess_clock E Hsave vr1 t1 m m1 Htick) as Hclock.
  split; [exact Htick|]. split; [exact Hclock|].
  repeat split.
  - intros H. apply tick_debounced_R. rewrite Hclock. exact H.
  - intros H. apply tick_processed_R; [exact Hvr2|]. rewrite Hclock. lra.
  - apply tick_debounced_R. rewrite Hclock. lra.
  - apply tick_processed_R; [exact Hvr2|]. rewrite Hclock. lra.
Qed.

(** *** The rotation calibrator *)

Lemma mmul_Identity_r (V : Matrix3d R) : mmul V Identity = V.
Proof.
  destruct V. unfold mmul, Identity, dot3. cbn. f_equal; ring.
Qed.

Lemma mmul_flip_last (V : Matrix3d R) :
  mmul V (set_m22 Identity (of_Z (-1))) = negate_last_column V.
Proof.
  destruct V. unfold mmul, set_m22, Identity, negate_last_column, dot3. cbn.
  f_equal; ring.
Qed.

Lemma KabschRotation_spec (E : Extern R) (cv : Matrix3d R) :
  KabschRotation E cv = Kabsch_spec (matrixU E cv) (matrixV E cv).
Proof.
  unfold KabschRotation, Kabsch_spec, reflection_corrected.
  cbn [dltb of_Z R_Scalar]. unfold R_ltb.
  destruct (Rlt_dec _ _).
  - now rewrite mmul_flip_last.
  - now rewrite mmul_Identity_r.
Qed.

Lemma coeff_vadd (a b : Vector3d R) (p : nat) :
  coeff (vadd a b) p = coeff a p + coeff b p.
Proof. destruct p as [|[|p]]; reflexivity. Qed.

Lemma centroid_sum_coeff (points : list (Vector3d R)) (p : nat) :
  forall acc,
    coeff (fold_left vadd points acc) p =
    coeff acc p + fold_right Rplus 0 (map (fun v => coeff v p) points).
Proof.
  induction points as [|v points IH]; intros acc; simpl.
  - ring.
  - rewrite IH, coeff_vadd. ring.
Qed.

Lemma centroid_mean (points : list (Vector3d R)) (p : nat) :
  coeff (centroid points (List.length points)) p = mean_coeff points p.
Proof.
  unfold centroid, centroid_sum, mean_coeff.
  rewrite INR_IZR_INZ.
  replace (coeff (vdiv (fold_left vadd points Zero3)
                       (of_Z (Z.of_nat (List.length points)))) p)
    with (coeff (fold_left vadd points Zero3) p
          / IZR (Z.of_nat (List.length points)))
    by (destruct p as [|[|p]]; reflexivity).
  rewrite centroid_sum_coeff.
  replace (coeff Zero3 p) with 0 by (destruct p as [|[|p]]; reflexivity).
  now rewrite Rplus_0_l.
Qed.

Lemma transpose_times_coeff (cr ct : Vector3d R) (deltas : list (DSample R)) (p q : nat) :
  forall acc,
    coeff (row (fold_left (fun acc rt => madd acc (outer (fst rt) (snd rt)))
                  (combine (map (fun d => vsub (DSample_ref d) cr) deltas)
                           (map (fun d => vsub (DSample_target d) ct) deltas))
                  acc) p) q =
    coeff (row acc p) q + cross_covariance_coeff deltas cr ct p q.
Proof.
  unfold cross_covariance_coeff.
  induction deltas as [|d deltas IH]; intros acc; simpl.
  - ring.
  - rewrite IH. rewrite <- Rplus_assoc. f_equal.
    destruct p as [|[|p]], q as [|[|q]]; reflexivity.
Qed.

(** C6: the rotation calibrator takes the singular bases [U] and [V] of the
    cross-covariance of the centred delta axes; when [det (U * V^T)] is
    negative it negates the last column of [V], the axis of the smallest
    singular value; it composes [V * U^T] from the corrected [V], transposes
    it, and returns its Euler angles for the axes 2, 1, 0 (Z, Y, X),
    converted to degrees. *)
Theorem rotation_calibrator_kabsch (E : Extern R) ctx (batch : list (Sample R)) :
  let deltas := RotationDeltas batch in
  let cr := refCentroid deltas in
  let ct := targetCentroid deltas in
  let cv := crossCV deltas in
  (forall p, coeff cr p = mean_coeff (map (@DSample_ref R) deltas) p
             /\ coeff ct p = mean_coeff (map (@DSample_target R) deltas) p)
  /\ (forall p q, coeff (row cv p) q = cross_covariance_coeff deltas cr ct p q)
  /\ snd (CalibrateRotation E ctx batch) =
     degrees (eulerAngles E (Kabsch_spec (matrixU E cv) (matrixV E cv)) 2 1 0).
Proof.
  intros deltas cr ct cv. split; [|split].
  - intros p. unfold cr, ct, refCentroid, targetCentroid. split.
    + rewrite <- (length_map (@DSample_ref R) deltas) at 1.
      apply centroid_mean.
    + rewrite <- (length_map (@DSample_target R) deltas) at 1.
      apply centroid_mean.
  - intros p q. unfold cv, crossCV, transpose_times.
    fold cr ct. rewrite transpose_times_coeff.
    replace (coeff (row Zero33 p) q) with 0
      by (destruct p as [|[|p]], q as [|[|q]]; reflexivity).
    now rewrite Rplus_0_l.
  - cbn [CalibrateRotation snd]. unfold RotationEuler, degrees.
    fold deltas. fold cv. now rewrite KabschRotation_spec.
Qed.

End OverTheReals.

(** ** The engine in binary64 *)

Section NoDeltas.

Context {D : Type} {SD : Scalar D}.

Lemma RotationDeltas_none (batch : list (Sample D)) :
  Forall (fun ij => DSample_valid
            (DeltaRotationSamples (at_ batch (fst ij)) (at_ batch (snd ij))) = false)
         (index_pairs (List.length batch)) ->
  RotationDeltas batch = [].
Proof.
  unfold RotationDeltas.
  induction 1 as [|ij pairs Hinvalid _ IH]; cbn [flat_map]; [reflexivity|].
  now rewrite Hinvalid, IH.
Qed.

End NoDeltas.

Section OverBinary64.

Context {lm : libm}.

(** *** The tick clock in binary64 *)

(** A difference of at least 0.06 is not below 0.05; the two literals are
    written as binary64 rounds them. *)
Lemma binary64_sixty_ms (d : float) :
  (0x1.eb851eb851eb8p-5 <=? d)%float = true ->
  (d <? 0x1.999999999999ap-5)%float = false.
Proof.
  rewrite leb_spec, ltb_spec.
  replace (Prim2SF 0x1.eb851eb851eb8p-5)
    with (S754_finite false 8646911284551352 (-57)) by (vm_compute; reflexivity).
  replace (Prim2SF 0x1.999999999999ap-5)
    with (S754_finite false 7205759403792794 (-57)) by (vm_compute; reflexivity).
  unfold SFleb, SFltb, SFcompare.
  destruct (Prim2SF d) as [s | s | | s m e].
  - destruct s; discriminate.
  - destruct s; [discriminate | reflexivity].
  - reflexivity.
  - destruct s; [discriminate|].
    destruct (Z.compare_spec (-57) e) as [<- | Hlt | Hgt].
    + rewrite Z.compare_refl, !Pos.compare_cont_spec. cbn [Pos.switch_Eq].
      assert (Hc : (7205759403792794 < 8646911284551352)%positive)
        by (vm_compute; reflexivity).
      destruct (Pos.compare_spec 8646911284551352 m) as [H1 | H1 | H1];
        [ | | discriminate];
        (destruct (Pos.compare_spec m 7205759403792794) as [H2 | H2 | H2];
         [reflexivity | | reflexivity]); intros _; exfalso.
      * subst m. exact (Pos.lt_irrefl _ (Pos.lt_trans _ _ _ H2 Hc)).
      * exact (Pos.lt_irrefl _
                 (Pos.lt_trans _ _ _ (Pos.lt_trans _ _ _ H2 Hc) H1)).
    + intros _. apply Z.compare_gt_iff in Hlt. rewrite Hlt. reflexivity.
    + discriminate.
Qed.

(** The same debounce on binary64 times, where the difference is the
    rounded one the program computes. *)
Lemma tick_debounce_binary64 (E : Extern float) vr (time : float) (m : Machine float) :
  ((time - timeLastTick (CalCtx m) <? 0x1.999999999999ap-5)%float = true ->
   CalibrationTick E vr time m = Some m)
  /\ (VRSystem vr = true ->
      (0x1.eb851eb851eb8p-5 <=? time - timeLastTick (CalCtx m))%float = true ->
      CalibrationTick E vr time m = TickProcess E vr time m).
Proof.
  split.
  - intros Hnear. now apply tick_debounced.
  - intros Hvr Hfar. apply tick_processed; [exact Hvr|].
    now apply binary64_sixty_ms.
Qed.

(** *** The rotation calibrator when no delta sample survives *)

(** C10: when every pair of the batch gives an invalid delta sample, the
    rotation calibrator has no delta and divides both centroid accumulators
    by the count zero: in binary64 every coefficient of both centroids is
    0/0, a NaN.  No branch tests the count: the calibrator goes on to
    decompose the cross-covariance, which is the zero matrix since no row
    was centred, and returns Euler angles. *)
Theorem empty_delta_set_divides_by_zero (E : Extern float) ctx (batch : list (Sample float)) :
  Forall (fun ij => DSample_valid
            (DeltaRotationSamples (at_ batch (fst ij)) (at_ batch (snd ij))) = false)
         (index_pairs (List.length batch)) ->
  let deltas := RotationDeltas batch in
  let cr := refCentroid deltas in
  let ct := targetCentroid deltas in
  deltas = []
  /\ cr = vdiv Zero3 0%float
  /\ ct = vdiv Zero3 0%float
  /\ (is_nan (v0 cr) && is_nan (v1 cr) && is_nan (v2 cr) = true)
  /\ (is_nan (v0 ct) && is_nan (v1 ct) && is_nan (v2 ct) = true)
  /\ crossCV deltas = Zero33
  /\ snd (CalibrateRotation E ctx batch) =
     degrees (eulerAngles E (KabschRotation E Zero33) 2 1 0).
Proof.
  intros Hinvalid deltas cr ct.
  assert (Hnone : deltas = []) by (apply RotationDeltas_none; exact Hinvalid).
  unfold cr, ct. cbn [CalibrateRotation snd]. fold deltas. rewrite Hnone.
  repeat split.
Qed.

End OverBinary64.

(** ** Runs stay among the reachable states *)

Section Reachability.

Context {D : Type} {SD : Scalar D}.
Variable E : Extern D.

Lemma run_reachable ticks : forall (m m' : Machine D),
  reachable E m -> run E ticks m = Some m' -> reachable E m'.
Proof.
  induction ticks as [|[vr time] rest IH]; simpl; intros m m' Hm Hrun.
  - now injection Hrun as <-.
  - destruct (CalibrationTick E vr time m) as [m1|] eqn:Htick; [|discriminate].
    apply (IH m1 m'); [|exact Hrun].
    apply (reachable_step Hm). now apply (step_tick E vr time).
Qed.

End Reachability.

(** * Closed instances on the still scene *)

Section ClosedInstances.

#[local] Existing Instance libm_still.

Lemma in_array_1 : in_array 1.
Proof. unfold in_array, k_unMaxTrackedDeviceCount. lia. Qed.

Lemma in_array_2 : in_array 2.
Proof. unfold in_array, k_unMaxTrackedDeviceCount. lia. Qed.

(** Fifty samples are in the accumulator when the reference loses tracking;
    the run started afterwards enters [Rotation] with those fifty. *)
Lemma partial_batch_survives_at_50 :
  exists m1 m2 : Machine float,
    CalibrationTick Extern_still vr_lost 1%float
      (machine_still CalibrationState.Rotation 50) = Some m1
    /\ state (CalCtx m1) = CalibrationState.None
    /\ CalibrationTick Extern_still vr_tracked 2%float (start m1) = Some m2
    /\ state (CalCtx m2) = CalibrationState.Rotation
    /\ List.length (samples m2) = 50%nat.
Proof.
  destruct (partial_batch_survives_tracking_loss Extern_still
              vr_lost 1%float vr_tracked 2%float
              (machine_still CalibrationState.Rotation 50))
    as (m1 & m2 & Htick1 & Hidle & _ & Htick2 & Hrot & Hsamples).
  - reflexivity.
  - reflexivity.
  - reflexivity.
  - exact in_array_1.
  - exact in_array_2.
  - left. reflexivity.
  - reflexivity.
  - reflexivity.
  - split; [exact in_array_1 | reflexivity].
  - split; [exact in_array_2 | reflexivity].
  - exists m1, m2. repeat split; try assumption.
    rewrite Hsamples. reflexivity.
Defined.

(** The reference is unset when the run starts: the [Begin] tick names it,
    aborts, and the machine is idle. *)
Lemma begin_gate_reference_unset :
  exists m' : Machine float,
    CalibrationTick Extern_still vr_tracked 1%float
      (start (mkMachine (ctx_still CalibrationState.None (-1) 2) [] [])) = Some m'
    /\ state (CalCtx m') = CalibrationState.None
    /\ messages (CalCtx m') =
       ("Missing reference device" ++ LF ++ "Aborting calibration!" ++ LF)%string
    /\ InputEmulator m' = [].
Proof.
  destruct (begin_gate Extern_still vr_tracked 1%float
              (mkMachine (ctx_still CalibrationState.None (-1) 2) [] []))
    as (m' & Htick & Habort & _).
  - reflexivity.
  - reflexivity.
  - left. reflexivity.
  - right. exact in_array_2.
  - destruct (Habort eq_refl) as (Hidle & _ & Hmsg & Hemu & _).
    exists m'. repeat split; assumption.
Defined.

(** Ninety-nine samples are in the accumulator: the next tick completes the
    rotation phase. *)
Lemma rotation_completes_after_99 :
  exists m' : Machine float,
    CalibrationTick Extern_still vr_tracked 1%float
      (machine_still CalibrationState.Rotation 99) = Some m'
    /\ state (CalCtx m') = CalibrationState.Translation
    /\ samples m' = []
    /\ InputEmulator m' =
       [ setWorldFromDriverRotationOffset 2
           (mkHmdQuaternion 1 0 0 0)%float;
         enableDeviceOffsets 2 true ].
Proof.
  destruct (rotation_completes_at_100 Extern_still vr_tracked 1%float
              (machine_still CalibrationState.Rotation 99))
    as (m' & Htick & Hfull & _).
  - reflexivity.
  - reflexivity.
  - reflexivity.
  - split; [exact in_array_1 | reflexivity].
  - split; [exact in_array_2 | reflexivity].
  - destruct (Hfull eq_refl) as (Hstate & _ & _ & Hsamples & Hemu).
    exists m'. repeat split; assumption.
Defined.

(** A run from an empty accumulator through [Begin] and one sampling tick:
    the machine it reaches holds one sample, a valid one. *)
Lemma accumulator_after_one_sample :
  exists m : Machine float,
    run Extern_still [(vr_tracked, 1%float); (vr_tracked, 2%float)]
      (start (machine_still CalibrationState.None 0)) = Some m
    /\ samples m = [sample_still]
    /\ Forall (fun s => Sample_valid s = true) (samples m).
Proof.
  eexists. split; [vm_compute; reflexivity|]. split; [reflexivity|].
  apply (accumulator_holds_valid_samples Extern_still).
  apply (run_reachable Extern_still
           [(vr_tracked, 1%float); (vr_tracked, 2%float)]
           (start (machine_still CalibrationState.None 0))).
  - apply (reachable_step (reachable_init Extern_still
             (ctx_still CalibrationState.None 1 2))).
    apply step_start.
  - vm_compute. reflexivity.
Defined.

(** Two samples of the still scene: their only pair is invalid, and both
    centroids are NaN. *)
Lemma empty_delta_set_two_still_samples :
  RotationDeltas [sample_still; sample_still] = ([] : list (DSample float))
  /\ is_nan (v0 (refCentroid (RotationDeltas [sample_still; sample_still]))) = true
  /\ is_nan (v0 (targetCentroid (RotationDeltas [sample_still; sample_still]))) = true.
Proof.
  destruct (empty_delta_set_divides_by_zero Extern_still
              (ctx_still CalibrationState.Rotation 1 2)
              [sample_still; sample_still])
    as (Hnone & _ & _ & Hcr & Hct & _).
  - repeat constructor.
  - split; [exact Hnone|]. split.
    + apply andb_true_iff in Hcr. destruct Hcr as [Hcr _].
      apply andb_true_iff in Hcr. exact (proj1 Hcr).
    + apply andb_true_iff in Hct. destruct Hct as [Hct _].
      apply andb_true_iff in Hct. exact (proj1 Hct).
Defined.

(** In binary64: after a processed tick at 1.0, the tick at 1.01 changes
    nothing and the tick at 1.06 is processed (the literals are 1.01 and
    1.06 as binary64 rounds them). *)
Lemma tick_debounce_binary64_at_1 :
  exists m1 : Machine float,
    CalibrationTick Extern_still vr_tracked 1%float
      (machine_still CalibrationState.None 0) = Some m1
    /\ timeLastTick (CalCtx m1) = 1%float
    /\ CalibrationTick Extern_still vr_tracked 0x1.028f5c28f5c29p+0%float m1 = Some m1
    /\ exists m2 : Machine float,
         CalibrationTick Extern_still vr_tracked 0x1.0f5c28f5c28f6p+0%float m1 = Some m2
         /\ timeLastTick (CalCtx m2) = 0x1.0f5c28f5c28f6p+0%float.
Proof.
  eexists. split; [vm_compute; reflexivity|].
  split; [reflexivity|]. split; [reflexivity|].
  eexists. split; [vm_compute; reflexivity | reflexivity].
Qed.

End ClosedInstances.

(** * Closed instances over the reals *)

Section ClosedInstancesR.

Local Open Scope R_scope.

Lemma delta_ref_turned : delta_ref sample_turned sample_still = quarter_turn.
Proof.
  unfold delta_ref, sample_turned, sample_still, quarter_turn, mmul, dot3.
  cbn. f_equal; ring.
Qed.

Lemma delta_target_turned : delta_target sample_turned sample_still = quarter_turn.
Proof.
  unfold delta_target, sample_turned, sample_still, quarter_turn, mmul, dot3.
  cbn. f_equal; ring.
Qed.

Lemma angle_quarter_turn : AngleFromRotationMatrix3 quarter_turn = PI / 2.
Proof.
  unfold AngleFromRotationMatrix3, quarter_turn. cbn.
  replace ((0 + 0 + 1 - 1) / 2) with 0 by field. apply acos_0.
Qed.

Lemma norm_axis_quarter_turn : norm (AxisFromRotationMatrix3 quarter_turn) = 2.
Proof.
  unfold norm, squaredNorm, AxisFromRotationMatrix3, quarter_turn. cbn.
  replace ((0 - 0) * (0 - 0) + (0 - 0) * (0 - 0) + (1 - -1) * (1 - -1))
    with (2 * 2) by ring.
  apply sqrt_square. lra.
Qed.

(** A sample taken after a quarter turn against a sample at rest: the delta
    sample is valid and carries unit axes. *)
Lemma delta_sample_quarter_turn :
  DSample_valid (DeltaRotationSamples sample_turned sample_still) = true
  /\ norm (DSample_ref (DeltaRotationSamples sample_turned sample_still)) = 1
  /\ norm (DSample_target (DeltaRotationSamples sample_turned sample_still)) = 1.
Proof.
  destruct (delta_sample_validity sample_turned sample_still eq_refl eq_refl)
    as (Hiff & Hunit & _).
  assert (Hvalid : DSample_valid (DeltaRotationSamples sample_turned sample_still) = true).
  { apply Hiff.
    rewrite delta_ref_turned, delta_target_turned,
      angle_quarter_turn, norm_axis_quarter_turn.
    pose proof PI2_1. lra. }
  split; [exact Hvalid|].
  destruct (Hunit Hvalid) as (_ & _ & Hr & Ht). split; assumption.
Defined.

(** A first tick at time 1 on an idle machine, then ticks 10ms and 60ms
    later. *)
Lemma tick_debounce_after_first_tick :
  CalibrationTick Extern_still vr_tracked (1 + 1 / 100) idle_ticked_at_1 =
    Some idle_ticked_at_1
  /\ CalibrationTick Extern_still vr_tracked (1 + 6 / 100) idle_ticked_at_1 =
     TickProcess Extern_still vr_tracked (1 + 6 / 100) idle_ticked_at_1.
Proof.
  destruct (tick_debounce Extern_still vr_tracked vr_tracked 1 0
              (machine_still CalibrationState.None 0) idle_ticked_at_1)
    as (_ & _ & _ & _ & Hnear & Hfar).
  - reflexivity.
  - reflexivity.
  - reflexivity.
  - cbn. lra.
  - rewrite tick_processed_R; [reflexivity | reflexivity | cbn; lra].
  - split; assumption.
Defined.

End ClosedInstancesR.

(** * The rest of [Calibration.cpp] *)

(** ** [StartsWith] and [EndsWith] *)

Section StringHelpers.

Local Open Scope string_scope.

Lemma substring_0_0 (s : string) : substring 0 0 s = "".
Proof. now destruct s. Qed.

Lemma substring_0_app (p r : string) : substring 0 (String.length p) (p ++ r) = p.
Proof.
  induction p as [|c p IH]; simpl; [apply substring_0_0 | now rewrite IH].
Qed.

Lemma substring_skip_app (f r : string) (n : nat) :
  substring (String.length f) n (f ++ r) = substring 0 n r.
Proof. induction f as [|c f IH]; simpl; [reflexivity | exact IH]. Qed.

Lemma substring_0_all (s : string) : substring 0 (String.length s) s = s.
Proof. induction s as [|c s IH]; simpl; [reflexivity | now rewrite IH]. Qed.

Lemma string_length_app (a b : string) :
  String.length (a ++ b) = (String.length a + String.length b)%nat.
Proof. induction a as [|c a IH]; simpl; [reflexivity | now rewrite IH]. Qed.

(** A string is its first [n] characters followed by the others. *)
Lemma substring_split (n : nat) : forall s : string,
  (n <= String.length s)%nat ->
  s = substring 0 n s ++ substring n (String.length s - n) s.
Proof.
  induction n as [|n IH]; intros s Hn.
  - rewrite substring_0_0, Nat.sub_0_r, substring_0_all. reflexivity.
  - destruct s as [|c s]; simpl in Hn; [lia|].
    simpl. f_equal. apply IH. lia.
Qed.

(** X1: [StartsWith str prefix] holds exactly when [str] is [prefix]
    followed by some string. *)
Theorem StartsWith_iff (str prefix : string) :
  StartsWith str prefix = true <-> exists rest, str = prefix ++ rest.
Proof.
  unfold StartsWith. split.
  - destruct (Nat.ltb_spec (String.length str) (String.length prefix)) as [|Hlen];
      [discriminate|].
    intros Heq. apply String.eqb_eq in Heq.
    exists (substring (String.length prefix)
                      (String.length str - String.length prefix) str).
    rewrite <- Heq at 1. now apply substring_split.
  - intros [rest ->].
    rewrite string_length_app.
    destruct (Nat.ltb_spec (String.length prefix + String.length rest)
                           (String.length prefix)) as [Hlt|_]; [lia|].
    rewrite substring_0_app. apply String.eqb_refl.
Qed.

(** X2: [EndsWith str suffix] holds exactly when [str] is some string
    followed by [suffix]. *)
Theorem EndsWith_iff (str suffix : string) :
  EndsWith str suffix = true <-> exists front, str = front ++ suffix.
Proof.
  unfold EndsWith. split.
  - destruct (Nat.ltb_spec (String.length str) (String.length suffix)) as [|Hlen];
      [discriminate|].
    intros Heq. apply String.eqb_eq in Heq.
    exists (substring 0 (String.length str - String.length suffix) str).
    pose proof (substring_split (String.length str - String.length suffix) str)
      as Hsplit.
    replace (String.length str - (String.length str - String.length suffix))%nat
      with (String.length suffix) in Hsplit by lia.
    rewrite Heq in Hsplit. apply Hsplit. lia.
  - intros [front ->].
    rewrite string_length_app.
    destruct (Nat.ltb_spec (String.length front + String.length suffix)
                           (String.length suffix)) as [Hlt|_]; [lia|].
    replace (String.length front + String.length suffix - String.length suffix)%nat
      with (String.length front) by lia.
    rewrite substring_skip_app, substring_0_all. apply String.eqb_refl.
Qed.

End StringHelpers.

(** ** Delta samples over the reals *)

Section DeltaSamplesR.

Local Open Scope R_scope.

Lemma Axis_transpose (m : Matrix3d R) :
  AxisFromRotationMatrix3 (transpose m) = vneg (AxisFromRotationMatrix3 m).
Proof.
  destruct m. unfold AxisFromRotationMatrix3, transpose, vneg. cbn.
  f_equal; ring.
Qed.

Lemma Angle_transpose (m : Matrix3d R) :
  AngleFromRotationMatrix3 (transpose m) = AngleFromRotationMatrix3 m.
Proof. reflexivity. Qed.

Lemma mmul_transpose_swap (a b : Matrix3d R) :
  mmul b (transpose a) = transpose (mmul a (transpose b)).
Proof.
  destruct a, b. unfold mmul, transpose, dot3. cbn. f_equal; ring.
Qed.

Lemma squaredNorm_vneg (v : Vector3d R) : squaredNorm (vneg v) = squaredNorm v.
Proof. destruct v. unfold squaredNorm, vneg. cbn. ring. Qed.

Lemma norm_vneg (v : Vector3d R) : norm (vneg v) = norm v.
Proof. unfold norm. now rewrite squaredNorm_vneg. Qed.

Lemma normalize_vneg (v : Vector3d R) : normalize (vneg v) = vneg (normalize v).
Proof.
  unfold normalize. rewrite squaredNorm_vneg.
  destruct (of_Z 0 <? squaredNorm v)%dbl; [|reflexivity].
  destruct v. unfold vdiv, vneg. cbn. f_equal; unfold Rdiv; ring.
Qed.

(** X3: the delta sample of a pair taken in the other order is valid
    exactly when the first is, and carries the opposite axes. *)
Theorem delta_sample_swap (s1 s2 : Sample R) :
  DSample_valid (DeltaRotationSamples s2 s1) = DSample_valid (DeltaRotationSamples s1 s2)
  /\ DSample_ref (DeltaRotationSamples s2 s1) = vneg (DSample_ref (DeltaRotationSamples s1 s2))
  /\ DSample_target (DeltaRotationSamples s2 s1)
     = vneg (DSample_target (DeltaRotationSamples s1 s2)).
Proof.
  unfold DeltaRotationSamples, delta_ref, delta_target.
  cbn [DSample_valid DSample_ref DSample_target].
  rewrite (mmul_transpose_swap (rot (Sample_ref s1)) (rot (Sample_ref s2))).
  rewrite (mmul_transpose_swap (rot (Sample_target s1)) (rot (Sample_target s2))).
  rewrite !Axis_transpose, !Angle_transpose, !norm_vneg, !normalize_vneg.
  repeat split.
Qed.

Lemma Axis_symmetric_product (m : Matrix3d R) :
  AxisFromRotationMatrix3 (mmul m (transpose m)) = Zero3.
Proof.
  destruct m. unfold AxisFromRotationMatrix3, mmul, transpose, dot3, Zero3. cbn.
  f_equal; ring.
Qed.

Lemma norm_Zero3 : norm (@Zero3 R _) = 0.
Proof.
  unfold norm, squaredNorm, Zero3. cbn.
  replace (0 * 0 + 0 * 0 + 0 * 0) with 0 by ring. apply sqrt_0.
Qed.

(** X4: when a device has the same orientation in both samples, the delta
    sample is invalid. *)
Theorem delta_sample_without_rotation (s1 s2 : Sample R) :
  rot (Sample_ref s1) = rot (Sample_ref s2) \/
  rot (Sample_target s1) = rot (Sample_target s2) ->
  DSample_valid (DeltaRotationSamples s1 s2) = false.
Proof.
  intros Hsame. unfold DeltaRotationSamples, delta_ref, delta_target.
  cbn [DSample_valid].
  assert (H : (lit_0_01 <? 0)%dbl = false) by (apply R_ltb_false; cbn; lra).
  destruct Hsame as [-> | ->]; rewrite Axis_symmetric_product, norm_Zero3, H.
  - now rewrite andb_false_r.
  - now rewrite andb_false_r.
Qed.

End DeltaSamplesR.

Section AboutZ.

Local Open Scope R_scope.

Lemma mmul_RotZ (a b : R) : mmul (RotZ a) (transpose (RotZ b)) = RotZ (a - b).
Proof.
  unfold mmul, transpose, RotZ, dot3. cbn.
  rewrite cos_minus, sin_minus. f_equal; ring.
Qed.

Lemma Angle_RotZ (t : R) : 0 <= t <= PI -> AngleFromRotationMatrix3 (RotZ t) = t.
Proof.
  intros Ht. unfold AngleFromRotationMatrix3, RotZ. cbn.
  replace ((cos t + cos t + 1 - 1) / 2) with (cos t) by field.
  now apply acos_cos.
Qed.

Lemma norm_Axis_RotZ (t : R) :
  0 <= t <= PI -> norm (AxisFromRotationMatrix3 (RotZ t)) = 2 * sin t.
Proof.
  intros [Hlo Hhi]. unfold norm, squaredNorm, AxisFromRotationMatrix3, RotZ. cbn.
  replace ((0 - 0) * (0 - 0) + (0 - 0) * (0 - 0) + (sin t - - sin t) * (sin t - - sin t))
    with ((2 * sin t) * (2 * sin t)) by ring.
  apply sqrt_square. pose proof (sin_ge_0 t Hlo Hhi). lra.
Qed.

Lemma normalize_Axis_RotZ (t : R) :
  0 <= t <= PI -> 1 / 100 < 2 * sin t ->
  normalize (AxisFromRotationMatrix3 (RotZ t)) = UnitZ.
Proof.
  intros Ht Hsin.
  assert (Hpos : 0 < squaredNorm (AxisFromRotationMatrix3 (RotZ t))).
  { apply (norm_above_positive _ (1 / 100)); [lra|].
    now rewrite norm_Axis_RotZ. }
  rewrite (normalize_positive _ Hpos), norm_Axis_RotZ by assumption.
  unfold vdiv, AxisFromRotationMatrix3, RotZ, UnitZ. cbn.
  f_equal; field; lra.
Qed.

(** X5: for two samples in which the reference is turned about the Z axis
    by [a] and [b] and the target by [c] and [d], with both differences
    between 0 and pi, the angles the delta sample is judged on are [a - b]
    and [c - d]; it is valid exactly when both exceed 0.4 and both
    [2 * sin] of them exceed 0.01, and then both axes are the unit Z
    vector. *)
Theorem delta_sample_about_Z (s1 s2 : Sample R) (a b c d : R) :
  rot (Sample_ref s1) = RotZ a ->
  rot (Sample_ref s2) = RotZ b ->
  rot (Sample_target s1) = RotZ c ->
  rot (Sample_target s2) = RotZ d ->
  0 <= a - b <= PI ->
  0 <= c - d <= PI ->
  AngleFromRotationMatrix3 (delta_ref s1 s2) = a - b
  /\ AngleFromRotationMatrix3 (delta_target s1 s2) = c - d
  /\ (DSample_valid (DeltaRotationSamples s1 s2) = true <->
      a - b > 4 / 10 /\ c - d > 4 / 10
      /\ 2 * sin (a - b) > 1 / 100 /\ 2 * sin (c - d) > 1 / 100)
  /\ (DSample_valid (DeltaRotationSamples s1 s2) = true ->
      DSample_ref (DeltaRotationSamples s1 s2) = UnitZ
      /\ DSample_target (DeltaRotationSamples s1 s2) = UnitZ).
Proof.
  intros Ha Hb Hc Hd Hab Hcd.
  assert (Hdr : delta_ref s1 s2 = RotZ (a - b))
    by (unfold delta_ref; rewrite Ha, Hb; apply mmul_RotZ).
  assert (Hdt : delta_target s1 s2 = RotZ (c - d))
    by (unfold delta_target; rewrite Hc, Hd; apply mmul_RotZ).
  assert (Hiff : DSample_valid (DeltaRotationSamples s1 s2) = true <->
                 a - b > 4 / 10 /\ c - d > 4 / 10
                 /\ 2 * sin (a - b) > 1 / 100 /\ 2 * sin (c - d) > 1 / 100).
  { unfold DeltaRotationSamples. cbn [DSample_valid].
    rewrite Hdr, Hdt, !Angle_RotZ, !norm_Axis_RotZ by assumption.
    cbn [dltb lit_0_4 lit_0_01 R_Scalar].
    rewrite !andb_true_iff, !R_ltb_true. unfold Rgt. tauto. }
  rewrite Hdr, Hdt, !Angle_RotZ by assumption.
  split; [reflexivity|]. split; [reflexivity|]. split; [exact Hiff|].
  intros Hvalid. apply Hiff in Hvalid. destruct Hvalid as (_ & _ & Hr & Ht).
  unfold DeltaRotationSamples. cbn [DSample_ref DSample_target].
  rewrite Hdr, Hdt.
  split; apply normalize_Axis_RotZ; assumption || lra.
Qed.

(** A quarter turn of both devices against a sample at rest. *)
Lemma delta_sample_about_Z_quarter_turn :
  DSample_valid (DeltaRotationSamples (sample_about_Z (PI / 2)) (sample_about_Z 0)) = true
  /\ DSample_ref (DeltaRotationSamples (sample_about_Z (PI / 2)) (sample_about_Z 0))
     = UnitZ.
Proof.
  assert (Hrange : 0 <= PI / 2 - 0 <= PI) by (pose proof PI_RGT_0; lra).
  destruct (delta_sample_about_Z (sample_about_Z (PI / 2)) (sample_about_Z 0)
              (PI / 2) 0 (PI / 2) 0 eq_refl eq_refl eq_refl eq_refl Hrange Hrange)
    as (_ & _ & Hiff & Haxes).
  assert (Hvalid : DSample_valid
            (DeltaRotationSamples (sample_about_Z (PI / 2)) (sample_about_Z 0)) = true).
  { apply Hiff. replace (PI / 2 - 0) with (PI / 2) by ring.
    rewrite sin_PI2. pose proof PI2_1. lra. }
  split; [exact Hvalid | exact (proj1 (Haxes Hvalid))].
Defined.

End AboutZ.

(** ** The delta samples the rotation calibrator keeps *)

Section KeptDeltas.

Local Open Scope R_scope.

Lemma flat_map_length_le {A B} (f : A -> list B) (l : list A) :
  (forall a, (List.length (f a) <= 1)%nat) ->
  (List.length (flat_map f l) <= List.length l)%nat.
Proof.
  intros Hf. induction l as [|a l IH]; simpl; [lia|].
  rewrite length_app. specialize (Hf a). lia.
Qed.

Lemma valid_delta_unit (s1 s2 : Sample R) :
  DSample_valid (DeltaRotationSamples s1 s2) = true ->
  norm (DSample_ref (DeltaRotationSamples s1 s2)) = 1
  /\ norm (DSample_target (DeltaRotationSamples s1 s2)) = 1.
Proof.
  unfold DeltaRotationSamples. cbn [DSample_valid DSample_ref DSample_target].
  cbn [dltb lit_0_4 lit_0_01 R_Scalar].
  rewrite !andb_true_iff, !R_ltb_true. intros [[[_ _] Hr] Ht].
  split; apply norm_normalize; apply (norm_above_positive _ (1 / 100)); lra.
Qed.

(** X6: the rotation calibrator keeps at most N*(N-1)/2 delta samples; each
    is the valid delta sample of a pair of the batch and carries unit
    axes. *)
Theorem rotation_deltas_valid_unit (batch : list (Sample R)) :
  (List.length (RotationDeltas batch)
   <= List.length batch * (List.length batch - 1) / 2)%nat
  /\ Forall (fun d =>
        DSample_valid d = true
        /\ norm (DSample_ref d) = 1
        /\ norm (DSample_target d) = 1
        /\ exists i j, (j < i < List.length batch)%nat
             /\ d = DeltaRotationSamples (at_ batch i) (at_ batch j))
       (RotationDeltas batch).
Proof.
  split.
  - rewrite <- index_pairs_length. unfold RotationDeltas.
    apply flat_map_length_le. intros ij.
    destruct (DSample_valid _); simpl; lia.
  - apply Forall_forall. intros d Hd. unfold RotationDeltas in Hd.
    apply in_flat_map in Hd. destruct Hd as ([i j] & Hij & Hd).
    apply index_pairs_In in Hij. cbn [fst snd] in Hd.
    destruct (DSample_valid (DeltaRotationSamples (at_ batch i) (at_ batch j)))
      eqn:Hvalid; [|contradiction].
    destruct Hd as [<- | []].
    destruct (valid_delta_unit _ _ Hvalid) as [Hr Ht].
    repeat split; try assumption; try lia.
    exists i, j. split; [lia | reflexivity].
Qed.

End KeptDeltas.

(** ** From the calibrators to the offset actuator *)

Section ActuatorUnits.

Local Open Scope R_scope.

Lemma qnorm2_qmul (a b : HmdQuaternion_t R) :
  qnorm2 (qmul a b) = qnorm2 a * qnorm2 b.
Proof. destruct a, b. unfold qnorm2, qmul. cbn. ring. Qed.

Lemma sin2_cos2_half (t : R) : cos t * cos t + sin t * sin t = 1.
Proof. pose proof (sin2_cos2 t) as H. unfold Rsqr in H. lra. Qed.

Lemma qnorm2_AngleAxisd_unit (t : R) (axis : Vector3d R) :
  squaredNorm axis = 1 -> qnorm2 (AngleAxisd t axis) = 1.
Proof.
  intros Haxis. destruct axis as [x y z].
  unfold squaredNorm in Haxis. cbn in Haxis.
  unfold qnorm2, AngleAxisd. cbn.
  set (h := 1 / 2 * t).
  replace (cos h * cos h + sin h * x * (sin h * x) + sin h * y * (sin h * y)
           + sin h * z * (sin h * z))
    with (cos h * cos h + sin h * sin h * (x * x + y * y + z * z)) by ring.
  rewrite Haxis, Rmult_1_r. apply sin2_cos2_half.
Qed.

(** X7: whatever Euler angles it is given, [VRRotationQuat] returns a unit
    quaternion. *)
Theorem VRRotationQuat_unit (eulerdeg : Vector3d R) :
  qnorm2 (VRRotationQuat eulerdeg) = 1.
Proof.
  unfold VRRotationQuat. rewrite !qnorm2_qmul.
  rewrite !qnorm2_AngleAxisd_unit; [ring | | | ];
    unfold squaredNorm, UnitX, UnitY, UnitZ; cbn; ring.
Qed.

(** X8: the quaternion sent for the rotation the calibrator returns is the
    product of the rotations about Z, Y and X by the three Euler angles
    Eigen extracted, in radians: the conversion to degrees and the one back
    cancel. *)
Theorem rotation_offset_of_calibration (E : Extern R) ctx (batch : list (Sample R)) :
  let e := eulerAngles E (KabschRotation E (crossCV (RotationDeltas batch))) 2 1 0 in
  VRRotationQuat (snd (CalibrateRotation E ctx batch)) =
  qmul (qmul (AngleAxisd (v0 e) UnitZ) (AngleAxisd (v1 e) UnitY))
       (AngleAxisd (v2 e) UnitX).
Proof.
  intros e. cbn [CalibrateRotation snd]. unfold RotationEuler. fold e.
  unfold VRRotationQuat.
  assert (Hback : vdiv (vscale (vdiv (vscale e (of_Z 180)) EIGEN_PI) EIGEN_PI) (of_Z 180) = e).
  { destruct e as [x y z]. unfold vdiv, vscale. cbn.
    pose proof PI_RGT_0. f_equal; field; lra. }
  now rewrite Hback.
Qed.

(** X9: the translation sent for the vector the calibrator returns is the
    least-squares solution itself: the factor 100 and the factor 0.01
    cancel. *)
Theorem translation_offset_of_calibration (E : Extern R) ctx (batch : list (Sample R)) :
  let t := bdcSvd_solve E (coefficients (TranslationDeltas batch))
             (constants (TranslationDeltas batch)) in
  VRTranslationVec (snd (CalibrateTranslation E ctx batch)) =
  mkHmdVector3d (v0 t) (v1 t) (v2 t).
Proof.
  intros t. cbn [CalibrateTranslation snd]. fold t.
  destruct t as [x y z]. unfold VRTranslationVec, vscale. cbn.
  f_equal; field.
Qed.

End ActuatorUnits.

(** ** What the translation calibrator sees of the positions *)

Section TranslationShift.

Local Open Scope R_scope.

Lemma flat_map_ext_In {A B} (f g : A -> list B) (l : list A) :
  (forall a, In a l -> f a = g a) -> flat_map f l = flat_map g l.
Proof.
  induction l as [|a l IH]; intros Hfg; simpl; [reflexivity|].
  rewrite (Hfg a (or_introl eq_refl)), IH; [reflexivity|].
  intros b Hb. apply Hfg. now right.
Qed.

Lemma shifted_batch_length shift (batch : list (Sample R)) :
  List.length (shifted_batch shift batch) = List.length batch.
Proof.
  unfold shifted_batch. rewrite length_map, length_combine, length_seq.
  apply Nat.min_id.
Qed.

Lemma shifted_batch_at shift (batch : list (Sample R)) (i : nat) :
  (i < List.length batch)%nat ->
  at_ (shifted_batch shift batch) i = shifted (shift i) (at_ batch i).
Proof.
  intros Hi. unfold at_, shifted_batch.
  rewrite (nth_indep _ Sample_default
             (shifted (shift (fst (O, @Sample_default R _)))
                      (snd (O, @Sample_default R _)))).
  - rewrite (map_nth (fun p => shifted (shift (fst p)) (snd p))).
    rewrite combine_nth by now rewrite length_seq.
    rewrite seq_nth by exact Hi. reflexivity.
  - fold (shifted_batch shift batch). now rewrite shifted_batch_length.
Qed.

Lemma vsub_shifted (a b d : Vector3d R) : vsub (vadd a d) (vadd b d) = vsub a b.
Proof. destruct a, b, d. unfold vsub, vadd. cbn. f_equal; ring. Qed.

Lemma translation_block_shifted rot_of (d1 d2 : Vector3d R) (s1 s2 : Sample R) :
  rot_of (shifted d1 s1) = rot_of s1 ->
  rot_of (shifted d2 s2) = rot_of s2 ->
  translation_block rot_of (shifted d1 s1) (shifted d2 s2)
  = translation_block rot_of s1 s2.
Proof.
  intros H1 H2. unfold translation_block. rewrite H1, H2.
  cbn [shifted Sample_ref Sample_target trans].
  now rewrite !vsub_shifted.
Qed.

(** X10: moving both devices together, by any amount at each sample, changes
    neither the linear system the translation calibrator builds nor the
    vector it returns: the system sees the positions only through the
    difference between the two devices. *)
Theorem translation_ignores_common_shift (E : Extern R) ctx shift
    (batch : list (Sample R)) :
  TranslationDeltas (shifted_batch shift batch) = TranslationDeltas batch
  /\ snd (CalibrateTranslation E ctx (shifted_batch shift batch))
     = snd (CalibrateTranslation E ctx batch).
Proof.
  assert (Hsame : TranslationDeltas (shifted_batch shift batch) = TranslationDeltas batch).
  { unfold TranslationDeltas. rewrite shifted_batch_length.
    apply flat_map_ext_In. intros [i j] Hij.
    apply index_pairs_In in Hij. cbn [fst snd].
    rewrite !shifted_batch_at by lia.
    now rewrite !translation_block_shifted. }
  split; [exact Hsame|].
  cbn [CalibrateTranslation snd]. now rewrite Hsame.
Qed.

End TranslationShift.

(** ** The profile scan and the acquisition gate *)

Section ScanAndGate.

Context {D : Type} {SD : Scalar D}.

Lemma ScanAndApplyProfile_step_calls vr (ctx : CalibrationContext D) emu id :
  ScanAndApplyProfile_step vr ctx emu id =
  emu ++ (if profile_applies vr ctx id then profile_calls ctx id else []).
Proof.
  unfold ScanAndApplyProfile_step, profile_applies, profile_calls.
  destruct (GetTrackedDeviceClass vr id); cbn;
    try (now rewrite app_nil_r);
    destruct (GetStringTrackedDeviceProperty vr id) as [ts|];
    try (now rewrite app_nil_r);
    destruct (String.eqb ts (targetTrackingSystem ctx)); cbn;
    try (now rewrite app_nil_r); reflexivity.
Qed.

Lemma ScanAndApplyProfile_fold vr (ctx : CalibrationContext D) ids : forall emu,
  fold_left (ScanAndApplyProfile_step vr ctx) ids emu =
  emu ++ flat_map (profile_calls ctx) (filter (profile_applies vr ctx) ids).
Proof.
  induction ids as [|id ids IH]; intros emu; simpl.
  - now rewrite app_nil_r.
  - rewrite IH, ScanAndApplyProfile_step_calls.
    destruct (profile_applies vr ctx id); simpl.
    + now rewrite <- app_assoc.
    + now rewrite app_nil_r.
Qed.

(** X11: a profile scan keeps the calls already sent and adds, in the order
    of the device indices, the rotation offset, the translation offset and
    the enabling call for each device below 64 that is neither invalid, an
    HMD nor a tracking reference and whose tracking system is the profile's;
    no other device is addressed. *)
Theorem ScanAndApplyProfile_calls vr (ctx : CalibrationContext D) emu :
  ScanAndApplyProfile vr ctx emu =
  emu ++ flat_map (profile_calls ctx)
           (filter (profile_applies vr ctx) (seq 0 k_unMaxTrackedDeviceCount))
  /\ (forall c,
        In c (flat_map (profile_calls ctx)
                (filter (profile_applies vr ctx) (seq 0 k_unMaxTrackedDeviceCount))) ->
        exists id, (id < k_unMaxTrackedDeviceCount)%nat
                   /\ call_device c = Z.of_nat id
                   /\ profile_applies vr ctx id = true)
  /\ (forall id, (id < k_unMaxTrackedDeviceCount)%nat ->
        profile_applies vr ctx id = true ->
        incl (profile_calls ctx id) (ScanAndApplyProfile vr ctx emu)).
Proof.
  assert (Heq : ScanAndApplyProfile vr ctx emu =
                emu ++ flat_map (profile_calls ctx)
                         (filter (profile_applies vr ctx)
                                 (seq 0 k_unMaxTrackedDeviceCount)))
    by apply ScanAndApplyProfile_fold.
  split; [exact Heq|]. split.
  - intros c Hc. apply in_flat_map in Hc. destruct Hc as (id & Hid & Hc).
    apply filter_In in Hid. destruct Hid as [Hseq Happ].
    apply in_seq in Hseq. exists id. split; [lia|]. split; [|exact Happ].
    unfold profile_calls in Hc.
    destruct Hc as [<- | [<- | [<- | []]]]; reflexivity.
  - intros id Hid Happ c Hc. rewrite Heq. apply in_or_app. right.
    apply in_flat_map. exists id. split; [|exact Hc].
    apply filter_In. split; [|exact Happ]. apply in_seq. lia.
Qed.

(** X12: with both identifiers inside the pose array, [CollectSample]
    returns a valid sample exactly when both devices are tracked.  The
    valid sample holds the two device matrices and the context is left as
    it is; otherwise the log gets one line for each untracked device and
    the abort line, the state becomes [None] and nothing else changes. *)
Theorem CollectSample_spec (ctx : CalibrationContext D) :
  in_array (referenceID ctx) ->
  in_array (targetID ctx) ->
  let reference := devicePoses ctx (Z.to_nat (referenceID ctx)) in
  let target := devicePoses ctx (Z.to_nat (targetID ctx)) in
  exists ctx' s,
    CollectSample ctx = Some (ctx', s)
    /\ Sample_valid s = bPoseIsValid reference && bPoseIsValid target
    /\ (Sample_valid s = true ->
        ctx' = ctx
        /\ s = Sample_of (Pose_of_HmdMatrix34 (mDeviceToAbsoluteTracking reference))
                         (Pose_of_HmdMatrix34 (mDeviceToAbsoluteTracking target)))
    /\ (Sample_valid s = false ->
        ctx' = set_state
                 (set_messages ctx
                    (messages ctx
                     ++ loss_diagnostic (bPoseIsValid reference) (bPoseIsValid target)
                     ++ "Aborting calibration!" ++ LF)%string)
                 CalibrationState.None).
Proof.
  intros Hr Ht reference target. unfold CollectSample.
  rewrite (pose_at_in_array ctx _ Hr), (pose_at_in_array ctx _ Ht).
  fold reference target. unfold loss_diagnostic.
  destruct (bPoseIsValid reference), (bPoseIsValid target); cbn [negb andb];
    eexists; eexists; (split; [reflexivity|]); cbn [Sample_valid Sample_of Sample_default];
    (split; [reflexivity|]); (split; [intros Hv | intros Hv]);
    try discriminate; try (split; reflexivity);
    unfold Message; cbn [messages set_messages set_state state referenceID targetID
      calibratedRotation calibratedTranslation targetTrackingSystem validProfile
      timeLastTick timeLastScan wantedUpdateInterval devicePoses];
    rewrite ?string_app_assoc; reflexivity.
Qed.

End ScanAndGate.

(** ** More of the state machine *)

Section MachineFacts.

Context {D : Type} {SD : Scalar D}.
Variable E : Extern D.
Local Open Scope dbl_scope.

(** X13: in [Translation], the tick whose sample brings the accumulator to
    100 runs the translation calibrator on the batch, stores its result,
    sends the translation offset to the target device, hands the context
    with that result to [SaveProfile], logs the completion line, empties the
    accumulator and returns to [None]; a tick that leaves the accumulator
    below 100 only appends the sample. *)
Theorem translation_completes_at_100 vr time (m : Machine D) :
  VRSystem vr = true ->
  (time - timeLastTick (CalCtx m) <? lit_0_05) = false ->
  state (CalCtx m) = CalibrationState.Translation ->
  tracked vr (referenceID (CalCtx m)) ->
  tracked vr (targetID (CalCtx m)) ->
  let ctx := Message (ticked vr time (CalCtx m)) "." in
  let batch := samples m ++ [sample_of_tick vr (CalCtx m)] in
  let cal := CalibrateTranslation E (Message ctx LF) batch in
  exists m',
    CalibrationTick E vr time m = Some m'
    /\ (List.length batch = 100%nat ->
        state (CalCtx m') = CalibrationState.None
        /\ CalCtx m' =
           set_state
             (Message (SaveProfile E (set_calibratedTranslation (fst cal) (snd cal)))
                      ("Finished calibration, profile saved" ++ LF))
             CalibrationState.None
        /\ samples m' = []
        /\ InputEmulator m' =
           InputEmulator m ++
           [ setWorldFromDriverTranslationOffset (targetID (CalCtx m))
               (VRTranslationVec (snd cal)) ])
    /\ ((List.length batch < 100)%nat ->
        state (CalCtx m') = CalibrationState.Translation
        /\ CalCtx m' = ctx
        /\ samples m' = batch
        /\ InputEmulator m' = InputEmulator m).
Proof.
  intros Hvr Htime Hstate Href Htarget ctx batch cal.
  rewrite (tick_processed _ _ _ _ Hvr Htime).
  rewrite TickProcess_sampling by now right.
  unfold TickSample. rewrite CollectSample_ticked by assumption.
  cbn [Sample_valid sample_of_tick Sample_of negb].
  fold batch. fold ctx.
  destruct (List.length batch =? totalSamples)%nat eqn:Hlen.
  - apply Nat.eqb_eq in Hlen.
    assert (Hst : state (Message ctx LF) = CalibrationState.Translation) by exact Hstate.
    rewrite Hst. fold cal.
    destruct cal as [ctx' transcm] eqn:Hcal.
    eexists. split; [reflexivity|]. split.
    + intros _. cbn.
      assert (Hid : targetID ctx' = targetID (CalCtx m)).
      { replace ctx' with (fst cal) by now rewrite Hcal. reflexivity. }
      rewrite Hid, (to_uint32_in_array _ (proj1 Htarget)).
      repeat split.
    + unfold totalSamples in Hlen. lia.
  - apply Nat.eqb_neq in Hlen.
    eexists. split; [reflexivity|]. split.
    + unfold totalSamples in Hlen. intros; contradiction.
    + intros _. cbn. repeat split; assumption.
Qed.

Lemma TickSample_moves (m m' : Machine D) ctx :
  TickSample E m ctx = Some m' ->
  state (CalCtx m') = state ctx
  \/ state (CalCtx m') = CalibrationState.None
  \/ (state ctx = CalibrationState.Rotation
      /\ state (CalCtx m') = CalibrationState.Translation).
Proof.
  unfold TickSample.
  destruct (CollectSample ctx) as [[ctx1 s]|] eqn:Hc; [|discriminate].
  apply CollectSample_inv in Hc.
  destruct Hc as [[Hs ->] | (-> & Hidle & _)].
  - rewrite Hs. cbn [negb]. destruct (_ =? _)%nat; [|intros [= <-]; now left].
    cbn [state Message set_messages].
    destruct (state ctx) eqn:Hst; intros [= <-]; cbn; auto.
  - cbn. intros [= <-]. right. now left.
Qed.

Lemma TickBegin_moves (m m' : Machine D) ctx :
  TickBegin m ctx = Some m' ->
  state (CalCtx m') = CalibrationState.None
  \/ state (CalCtx m') = CalibrationState.Rotation.
Proof.
  unfold TickBegin.
  destruct (begin_check _ _ _ _) as [st|]; [|discriminate].
  destruct (begin_check _ _ _ st) as [[ctx1 ok]|]; [|discriminate].
  destruct ok; intros [= <-]; cbn; auto.
Qed.

Lemma TickNone_state vr time (m : Machine D) ctx :
  state (CalCtx (TickNone vr time m ctx)) = state ctx.
Proof.
  unfold TickNone. cbn [validProfile set_wantedUpdateInterval].
  destruct (negb _); [reflexivity|]. now destruct (_ <=? _).
Qed.

Lemma TickEditing_state vr (m : Machine D) ctx :
  state (CalCtx (TickEditing vr m ctx)) = state ctx.
Proof.
  unfold TickEditing. cbn [validProfile set_wantedUpdateInterval].
  now destruct (negb _).
Qed.

(** X14: a tick moves the state only along the transition table: [None]
    and [Editing] stay; [Begin] stays (the tick was skipped) or goes to
    [None] or [Rotation]; [Rotation] stays or goes to [None] or
    [Translation]; [Translation] stays or goes to [None].  Outside the two
    sampling states it leaves the accumulator as it is. *)
Theorem tick_transitions vr time (m m' : Machine D) :
  CalibrationTick E vr time m = Some m' ->
  tick_may_move (state (CalCtx m)) (state (CalCtx m')) = true
  /\ (state (CalCtx m) <> CalibrationState.Rotation ->
      state (CalCtx m) <> CalibrationState.Translation ->
      samples m' = samples m).
Proof.
  intros Htick.
  destruct (tick_cases E vr time m) as [Hsame | Hproc]; rewrite Htick in *.
  - injection Hsame as ->. split; [|reflexivity].
    now destruct (state (CalCtx m)).
  - symmetry in Hproc. unfold TickProcess in Hproc.
    cbn [state set_devicePoses set_timeLastTick] in Hproc.
    destruct (state (CalCtx m)) eqn:Hst.
    + injection Hproc as <-.
      rewrite TickNone_state, TickNone_samples. cbn. now rewrite Hst.
    + injection Hproc as <-.
      rewrite TickEditing_state, TickEditing_samples. cbn. now rewrite Hst.
    + split; [|intros _ _; exact (TickBegin_samples _ _ _ Hproc)].
      destruct (TickBegin_moves _ _ _ Hproc) as [-> | ->]; reflexivity.
    + split; [|intros Hno; contradiction].
      destruct (TickSample_moves _ _ _ Hproc) as [H | [H | [_ H]]];
        rewrite H; cbn; now rewrite ?Hst.
    + split; [|intros _ Hno; contradiction].
      destruct (TickSample_moves _ _ _ Hproc) as [H | [H | [Hrot _]]].
      * rewrite H. cbn. now rewrite Hst.
      * now rewrite H.
      * cbn in Hrot. rewrite Hst in Hrot. discriminate.
Qed.

Lemma TickSample_below_100 (m m' : Machine D) ctx :
  TickSample E m ctx = Some m' ->
  (List.length (samples m) < 100)%nat ->
  (List.length (samples m') < 100)%nat.
Proof.
  unfold TickSample. intros Htick Hlt.
  destruct (CollectSample ctx) as [[ctx1 s]|]; [|discriminate].
  destruct (negb (Sample_valid s)); [now injection Htick as <-|].
  destruct (List.length (samples m ++ [s]) =? totalSamples)%nat eqn:Hlen.
  - destruct (state (Message (Message ctx1 ".") LF));
      injection Htick as <-; cbn; lia.
  - injection Htick as <-. cbn [samples].
    apply Nat.eqb_neq in Hlen. unfold totalSamples in Hlen.
    rewrite length_app in *. simpl in *. lia.
Qed.

Lemma tick_below_100 vr time (m m' : Machine D) :
  CalibrationTick E vr time m = Some m' ->
  (List.length (samples m) < 100)%nat ->
  (List.length (samples m') < 100)%nat.
Proof.
  intros Htick Hlt.
  destruct (tick_cases E vr time m) as [Hsame | Hproc]; rewrite Htick in *.
  - now injection Hsame as ->.
  - symmetry in Hproc. unfold TickProcess in Hproc.
    destruct (state _).
    + injection Hproc as <-. now rewrite TickNone_samples.
    + injection Hproc as <-. now rewrite TickEditing_samples.
    + now rewrite (TickBegin_samples _ _ _ Hproc).
    + eapply TickSample_below_100; eassumption.
    + eapply TickSample_below_100; eassumption.
Qed.

(** X15: in every reachable state the accumulator holds fewer than 100
    samples: a batch never outlives the tick that completes it. *)
Theorem accumulator_below_100 (m : Machine D) :
  reachable E m -> (List.length (samples m) < 100)%nat.
Proof.
  induction 1 as [ctx | m m' _ IH Hstep].
  - simpl. lia.
  - destruct Hstep as [vr time m m' Htick | m | m ctx]; simpl; auto.
    eapply tick_below_100; eassumption.
Qed.

End MachineFacts.

(** ** A whole calibration run *)

Section WholeRunFacts.

Context {D : Type} {SD : Scalar D}.
Variable E : Extern D.
Local Open Scope dbl_scope.

Lemma run_app (a b : list (VRSystem_t D * D)) : forall m : Machine D,
  run E (a ++ b) m = match run E a m with Some m' => run E b m' | None => None end.
Proof.
  induction a as [|[vr time] a IH]; intros m; simpl; [reflexivity|].
  destruct (CalibrationTick E vr time m) as [m1|]; [apply IH | reflexivity].
Qed.

Lemma spaced_app (a b : list (VRSystem_t D * D)) : forall last,
  spaced last (a ++ b) <-> spaced last a /\ spaced (last_time last a) b.
Proof.
  induction a as [|tk a IH]; intros last; simpl.
  - unfold last_time. simpl. tauto.
  - rewrite IH. unfold last_time. simpl. tauto.
Qed.

Lemma last_time_snoc (a : list (VRSystem_t D * D)) tk last :
  last_time last (a ++ [tk]) = snd tk.
Proof. unfold last_time. now rewrite fold_left_app. Qed.

(** A tick with both devices tracked, below the batch size. *)
Lemma sampling_tick_below vr time (m : Machine D) :
  VRSystem vr = true ->
  (time - timeLastTick (CalCtx m) <? lit_0_05) = false ->
  state (CalCtx m) = CalibrationState.Rotation \/
  state (CalCtx m) = CalibrationState.Translation ->
  tracked vr (referenceID (CalCtx m)) ->
  tracked vr (targetID (CalCtx m)) ->
  (List.length (samples m) + 1 < 100)%nat ->
  CalibrationTick E vr time m =
  Some (mkMachine (Message (ticked vr time (CalCtx m)) ".")
                  (samples m ++ [sample_of_tick vr (CalCtx m)])
                  (InputEmulator m)).
Proof.
  intros Hvr Htime Hstate Href Htarget Hlen.
  rewrite (tick_processed _ _ _ _ Hvr Htime).
  rewrite TickProcess_sampling by assumption.
  unfold TickSample. rewrite CollectSample_ticked by assumption.
  cbn [Sample_valid sample_of_tick Sample_of negb].
  destruct (Nat.eqb_spec
              (List.length (samples m ++ [sample_of_tick vr (CalCtx m)]))
              totalSamples) as [Heq | _]; [|reflexivity].
  rewrite length_app in Heq. unfold totalSamples in Heq. simpl in Heq. lia.
Qed.

Lemma rotation_tick_full vr time (m : Machine D) :
  VRSystem vr = true ->
  (time - timeLastTick (CalCtx m) <? lit_0_05) = false ->
  state (CalCtx m) = CalibrationState.Rotation ->
  tracked vr (referenceID (CalCtx m)) ->
  tracked vr (targetID (CalCtx m)) ->
  List.length (samples m) = 99%nat ->
  let batch := samples m ++ [sample_of_tick vr (CalCtx m)] in
  let cal := CalibrateRotation E
               (Message (Message (ticked vr time (CalCtx m)) ".") LF) batch in
  CalibrationTick E vr time m =
  Some (mkMachine
          (set_state (set_calibratedRotation (fst cal) (snd cal))
                     CalibrationState.Translation)
          []
          (InputEmulator m ++
           [ setWorldFromDriverRotationOffset (targetID (CalCtx m))
               (VRRotationQuat (snd cal));
             enableDeviceOffsets (targetID (CalCtx m)) true ])).
Proof.
  intros Hvr Htime Hstate Href Htarget Hlen batch cal.
  rewrite (tick_processed _ _ _ _ Hvr Htime).
  rewrite TickProcess_sampling by now left.
  unfold TickSample. rewrite CollectSample_ticked by assumption.
  cbn [Sample_valid sample_of_tick Sample_of negb]. fold batch.
  assert (Hfull : (List.length batch =? totalSamples)%nat = true).
  { apply Nat.eqb_eq. unfold batch. rewrite length_app, Hlen. reflexivity. }
  rewrite Hfull.
  assert (Hst : state (Message (Message (ticked vr time (CalCtx m)) ".") LF)
                = CalibrationState.Rotation) by exact Hstate.
  rewrite Hst. unfold cal, CalibrateRotation.
  cbn [fst snd targetID Message set_messages set_calibratedRotation
       calibratedRotation ticked set_devicePoses set_timeLastTick].
  now rewrite (to_uint32_in_array _ (proj1 Htarget)).
Qed.

Lemma translation_tick_full vr time (m : Machine D) :
  VRSystem vr = true ->
  (time - timeLastTick (CalCtx m) <? lit_0_05) = false ->
  state (CalCtx m) = CalibrationState.Translation ->
  tracked vr (referenceID (CalCtx m)) ->
  tracked vr (targetID (CalCtx m)) ->
  List.length (samples m) = 99%nat ->
  let batch := samples m ++ [sample_of_tick vr (CalCtx m)] in
  let cal := CalibrateTranslation E
               (Message (Message (ticked vr time (CalCtx m)) ".") LF) batch in
  CalibrationTick E vr time m =
  Some (mkMachine
          (set_state
             (Message (SaveProfile E (set_calibratedTranslation (fst cal) (snd cal)))
                      ("Finished calibration, profile saved" ++ LF))
             CalibrationState.None)
          []
          (InputEmulator m ++
           [ setWorldFromDriverTranslationOffset (targetID (CalCtx m))
               (VRTranslationVec (snd cal)) ])).
Proof.
  intros Hvr Htime Hstate Href Htarget Hlen batch cal.
  rewrite (tick_processed _ _ _ _ Hvr Htime).
  rewrite TickProcess_sampling by now right.
  unfold TickSample. rewrite CollectSample_ticked by assumption.
  cbn [Sample_valid sample_of_tick Sample_of negb]. fold batch.
  assert (Hfull : (List.length batch =? totalSamples)%nat = true).
  { apply Nat.eqb_eq. unfold batch. rewrite length_app, Hlen. reflexivity. }
  rewrite Hfull.
  assert (Hst : state (Message (Message (ticked vr time (CalCtx m)) ".") LF)
                = CalibrationState.Translation) by exact Hstate.
  rewrite Hst. unfold cal, CalibrateTranslation.
  cbn [fst snd targetID Message set_messages set_calibratedTranslation
       calibratedTranslation ticked set_devicePoses set_timeLastTick].
  now rewrite (to_uint32_in_array _ (proj1 Htarget)).
Qed.

Lemma sample_of_tick_for vr time (ctx : CalibrationContext D) r t :
  referenceID ctx = r -> targetID ctx = t ->
  sample_of_tick vr ctx = sample_for r t (vr, time).
Proof. intros <- <-. reflexivity. Qed.

(** Ticks that keep the accumulator below the batch size only append. *)
Lemma sampling_run (r t : Z) (ticks : list (VRSystem_t D * D)) :
  forall m : Machine D,
  state (CalCtx m) = CalibrationState.Rotation \/
  state (CalCtx m) = CalibrationState.Translation ->
  referenceID (CalCtx m) = r ->
  targetID (CalCtx m) = t ->
  Forall (tracking_both r t) ticks ->
  spaced (timeLastTick (CalCtx m)) ticks ->
  (List.length (samples m) + List.length ticks < 100)%nat ->
  exists m',
    run E ticks m = Some m'
    /\ state (CalCtx m') = state (CalCtx m)
    /\ referenceID (CalCtx m') = r
    /\ targetID (CalCtx m') = t
    /\ samples m' = samples m ++ map (sample_for r t) ticks
    /\ InputEmulator m' = InputEmulator m
    /\ timeLastTick (CalCtx m') = last_time (timeLastTick (CalCtx m)) ticks.
Proof.
  induction ticks as [|[vr time] rest IH]; intros m Hstate Hr Ht Hall Hsp Hlen.
  - exists m. simpl. rewrite app_nil_r. repeat split; assumption.
  - inversion Hall as [|tk rest' Htk Hrest]; subst tk rest'.
    destruct Htk as (Hvr & Href & Htarget). cbn [fst] in Hvr, Href, Htarget.
    destruct Hsp as [Htime Hsp]. cbn [snd] in Htime, Hsp.
    simpl in Hlen.
    cbn [run].
    rewrite sampling_tick_below;
      [ | assumption | assumption | assumption
        | now rewrite Hr | now rewrite Ht | lia ].
    destruct (IH (mkMachine (Message (ticked vr time (CalCtx m)) ".")
                            (samples m ++ [sample_of_tick vr (CalCtx m)])
                            (InputEmulator m)))
      as (m' & Hrun & Hst' & Hr' & Ht' & Hs' & He' & Hclock');
      try assumption.
    + cbn [samples]. rewrite length_app. simpl. lia.
    + exists m'. split; [exact Hrun|].
      repeat split; try assumption.
      cbn [samples] in Hs'. rewrite Hs', <- app_assoc.
      now rewrite (sample_of_tick_for vr time (CalCtx m) r t Hr Ht).
Qed.

Lemma split_last {A} (l : list A) (n : nat) :
  List.length l = S n ->
  exists front x, l = front ++ [x] /\ List.length front = n.
Proof.
  intros Hlen. destruct (exists_last (l := l)) as (front & x & ->).
  - intros ->. discriminate.
  - exists front, x. split; [reflexivity|].
    rewrite length_app in Hlen. simpl in Hlen. lia.
Qed.

(** One hundred ticks in [Rotation], from an empty accumulator. *)
Lemma rotation_phase_run (r t : Z) (ticks : list (VRSystem_t D * D)) (m : Machine D) :
  state (CalCtx m) = CalibrationState.Rotation ->
  referenceID (CalCtx m) = r ->
  targetID (CalCtx m) = t ->
  samples m = [] ->
  List.length ticks = 100%nat ->
  Forall (tracking_both r t) ticks ->
  spaced (timeLastTick (CalCtx m)) ticks ->
  exists m',
    run E ticks m = Some m'
    /\ state (CalCtx m') = CalibrationState.Translation
    /\ referenceID (CalCtx m') = r
    /\ targetID (CalCtx m') = t
    /\ samples m' = []
    /\ timeLastTick (CalCtx m') = last_time (timeLastTick (CalCtx m)) ticks
    /\ InputEmulator m' =
       InputEmulator m ++
       [ setWorldFromDriverRotationOffset t
           (VRRotationQuat (RotationEuler E (RotationDeltas (map (sample_for r t) ticks))));
         enableDeviceOffsets t true ].
Proof.
  intros Hstate Hr Ht Hempty Hlen Hall Hsp.
  destruct (split_last ticks 99 Hlen) as (front & [vr time] & -> & Hfront).
  apply Forall_app in Hall. destruct Hall as [Hall Hlast].
  inversion Hlast as [|tk nil' Htk _]; subst tk nil'.
  destruct Htk as (Hvr & Href & Htarget). cbn [fst] in Hvr, Href, Htarget.
  apply spaced_app in Hsp. destruct Hsp as [Hsp [Htime _]]. cbn [snd] in Htime.
  destruct (sampling_run r t front m (or_introl Hstate) Hr Ht Hall Hsp)
    as (m1 & Hrun & Hst1 & Hr1 & Ht1 & Hs1 & He1 & Hclock1).
  { rewrite Hempty, Hfront. simpl. lia. }
  rewrite run_app, Hrun. cbn [run].
  rewrite rotation_tick_full;
    [ | assumption | now rewrite Hclock1 | now rewrite Hst1
      | now rewrite Hr1 | now rewrite Ht1
      | rewrite Hs1, Hempty; cbn [app]; rewrite length_map; exact Hfront ].
  eexists. split; [reflexivity|].
  cbn [CalCtx samples InputEmulator state set_state referenceID targetID
       timeLastTick set_calibratedRotation CalibrateRotation fst snd Message
       set_messages ticked set_devicePoses set_timeLastTick].
  rewrite last_time_snoc, Hr1, Ht1, He1, Hs1, Hempty.
  rewrite (sample_of_tick_for vr time (CalCtx m1) r t Hr1 Ht1).
  cbn [app]. rewrite map_app. cbn [map snd].
  repeat split.
Qed.

(** One hundred ticks in [Translation], from an empty accumulator. *)
Lemma translation_phase_run (r t : Z) (ticks : list (VRSystem_t D * D)) (m : Machine D) :
  state (CalCtx m) = CalibrationState.Translation ->
  referenceID (CalCtx m) = r ->
  targetID (CalCtx m) = t ->
  samples m = [] ->
  List.length ticks = 100%nat ->
  Forall (tracking_both r t) ticks ->
  spaced (timeLastTick (CalCtx m)) ticks ->
  exists m',
    run E ticks m = Some m'
    /\ state (CalCtx m') = CalibrationState.None
    /\ samples m' = []
    /\ InputEmulator m' =
       InputEmulator m ++
       [ setWorldFromDriverTranslationOffset t
           (VRTranslationVec
              (vscale (bdcSvd_solve E
                         (coefficients (TranslationDeltas (map (sample_for r t) ticks)))
                         (constants (TranslationDeltas (map (sample_for r t) ticks))))
                      (of_Z 100))) ].
Proof.
  intros Hstate Hr Ht Hempty Hlen Hall Hsp.
  destruct (split_last ticks 99 Hlen) as (front & [vr time] & -> & Hfront).
  apply Forall_app in Hall. destruct Hall as [Hall Hlast].
  inversion Hlast as [|tk nil' Htk _]; subst tk nil'.
  destruct Htk as (Hvr & Href & Htarget). cbn [fst] in Hvr, Href, Htarget.
  apply spaced_app in Hsp. destruct Hsp as [Hsp [Htime _]]. cbn [snd] in Htime.
  destruct (sampling_run r t front m (or_intror Hstate) Hr Ht Hall Hsp)
    as (m1 & Hrun & Hst1 & Hr1 & Ht1 & Hs1 & He1 & Hclock1).
  { rewrite Hempty, Hfront. simpl. lia. }
  rewrite run_app, Hrun. cbn [run].
  rewrite translation_tick_full;
    [ | assumption | now rewrite Hclock1 | now rewrite Hst1
      | now rewrite Hr1 | now rewrite Ht1
      | rewrite Hs1, Hempty; cbn [app]; rewrite length_map; exact Hfront ].
  eexists. split; [reflexivity|].
  cbn [CalCtx samples InputEmulator state set_state CalibrateTranslation fst snd].
  rewrite Ht1, He1, Hs1, Hempty.
  rewrite (sample_of_tick_for vr time (CalCtx m1) r t Hr1 Ht1).
  cbn [app]. rewrite map_app. cbn [map].
  repeat split.
Qed.

(** X16: from an empty accumulator, a start request followed by 201 ticks
    that are all processed and all find both devices tracked completes the
    calibration: the machine is back in [None] with an empty accumulator,
    and the actuator has received, for the target device and in this order,
    the reset of both offsets and their disabling, the rotation offset
    computed from the samples of ticks 2 to 101 with the enabling call, and
    the translation offset computed from the samples of ticks 102 to 201. *)
Theorem calibration_run_completes (m : Machine D)
    (begin_tick : VRSystem_t D * D) (rot_ticks trans_ticks : list (VRSystem_t D * D)) :
  let r := referenceID (CalCtx m) in
  let t := targetID (CalCtx m) in
  samples m = [] ->
  List.length rot_ticks = 100%nat ->
  List.length trans_ticks = 100%nat ->
  Forall (tracking_both r t) (begin_tick :: rot_ticks ++ trans_ticks) ->
  spaced (timeLastTick (CalCtx m)) (begin_tick :: rot_ticks ++ trans_ticks) ->
  exists m',
    run E (begin_tick :: rot_ticks ++ trans_ticks) (start m) = Some m'
    /\ state (CalCtx m') = CalibrationState.None
    /\ samples m' = []
    /\ InputEmulator m' =
       InputEmulator m ++
       [ setWorldFromDriverRotationOffset t
           (mkHmdQuaternion (of_Z 1) (of_Z 0) (of_Z 0) (of_Z 0));
         setWorldFromDriverTranslationOffset t
           (mkHmdVector3d (of_Z 0) (of_Z 0) (of_Z 0));
         enableDeviceOffsets t false;
         setWorldFromDriverRotationOffset t
           (VRRotationQuat
              (RotationEuler E (RotationDeltas (map (sample_for r t) rot_ticks))));
         enableDeviceOffsets t true;
         setWorldFromDriverTranslationOffset t
           (VRTranslationVec
              (vscale (bdcSvd_solve E
                         (coefficients
                            (TranslationDeltas (map (sample_for r t) trans_ticks)))
                         (constants
                            (TranslationDeltas (map (sample_for r t) trans_ticks))))
                      (of_Z 100))) ].
Proof.
  intros r t Hempty Hrot Htrans Hall Hsp.
  destruct begin_tick as [vr0 t0].
  inversion Hall as [|tk rest Htk Hrest]; subst tk rest.
  destruct Htk as (Hvr0 & Href0 & Htarget0). cbn [fst] in Hvr0, Href0, Htarget0.
  destruct Hsp as [Htime0 Hsp]. cbn [snd] in Htime0, Hsp.
  apply Forall_app in Hrest. destruct Hrest as [Hall_rot Hall_trans].
  apply spaced_app in Hsp. destruct Hsp as [Hsp_rot Hsp_trans].
  (* the Begin tick *)
  cbn [run].
  rewrite tick_processed; [ | exact Hvr0 | exact Htime0 ].
  unfold TickProcess.
  cbn [start CalCtx StartCalibration state set_state set_wantedUpdateInterval
       set_messages set_timeLastTick set_devicePoses].
  match goal with |- context [TickBegin ?m0 ?c0] =>
    destruct (TickBegin_selectable vr0 m0 c0 eq_refl
                (or_intror (proj1 Href0)) (or_intror (proj1 Htarget0)))
      as (m1 & -> & Hs1 & Hclock1 & Hr1 & Ht1 & _ & Hgo)
  end.
  change (samples m1 = samples m) in Hs1.
  change (timeLastTick (CalCtx m1) = t0) in Hclock1.
  change (referenceID (CalCtx m1) = r) in Hr1.
  change (targetID (CalCtx m1) = t) in Ht1.
  change (ready vr0 r && ready vr0 t = true ->
          state (CalCtx m1) = CalibrationState.Rotation
          /\ InputEmulator m1 =
             ResetAndDisableOffsets (to_uint32 t) (InputEmulator m)) in Hgo.
  destruct Hgo as [Hst1 He1]; [now rewrite !tracked_ready|].
  rewrite (to_uint32_in_array _ (proj1 Htarget0)) in He1.
  (* the rotation phase *)
  destruct (rotation_phase_run r t rot_ticks m1 Hst1 Hr1 Ht1)
    as (m2 & Hrun2 & Hst2 & Hr2 & Ht2 & Hs2 & Hclock2 & He2);
    [ now rewrite Hs1 | exact Hrot | exact Hall_rot | now rewrite Hclock1 | ].
  rewrite Hclock1 in Hclock2.
  (* the translation phase *)
  destruct (translation_phase_run r t trans_ticks m2 Hst2 Hr2 Ht2 Hs2 Htrans Hall_trans)
    as (m3 & Hrun3 & Hst3 & Hs3 & He3).
  { rewrite Hclock2. exact Hsp_trans. }
  exists m3. rewrite run_app, Hrun2, Hrun3.
  split; [reflexivity|]. split; [exact Hst3|]. split; [exact Hs3|].
  rewrite He3, He2, He1. unfold ResetAndDisableOffsets.
  now rewrite <- !app_assoc.
Qed.

End WholeRunFacts.

(** ** Idle and editing ticks *)

Section ProfileScanFacts.

Context {D : Type} {SD : Scalar D}.

(** A scan reads three fields of the context only. *)
Lemma ScanAndApplyProfile_ext vr (c1 c2 : CalibrationContext D) emu :
  calibratedRotation c1 = calibratedRotation c2 ->
  calibratedTranslation c1 = calibratedTranslation c2 ->
  targetTrackingSystem c1 = targetTrackingSystem c2 ->
  ScanAndApplyProfile vr c1 emu = ScanAndApplyProfile vr c2 emu.
Proof.
  intros Hrot Htrans Hsys. unfold ScanAndApplyProfile.
  rewrite (ScanAndApplyProfile_fold vr c1), (ScanAndApplyProfile_fold vr c2).
  apply (f_equal (app emu)).
  rewrite (filter_ext (profile_applies vr c1) (profile_applies vr c2)).
  - apply flat_map_ext. intros id. unfold profile_calls. now rewrite Hrot, Htrans.
  - intros id. unfold profile_applies. now rewrite Hsys.
Qed.

End ProfileScanFacts.

Section IdleAndEditing.

Local Open Scope R_scope.

Lemma R_leb_true (x y : R) : R_leb x y = true <-> x <= y.
Proof. unfold R_leb. destruct (Rle_dec x y); split; auto; discriminate. Qed.

Lemma R_leb_false (x y : R) : R_leb x y = false <-> y < x.
Proof.
  unfold R_leb. destruct (Rle_dec x y); split; auto; try discriminate; lra.
Qed.

(** X17: a processed tick in [None] or [Editing] keeps the state, the
    accumulator and the log.  Without a valid profile the actuator receives
    nothing.  With one, [Editing] scans and applies the profile on every
    such tick, while [None] does so only when at least 2.5 s have passed
    since the last scan, whose time it then sets to the tick's. *)
Theorem profile_reapplication (E : Extern R) vr (time : R) (m : Machine R) :
  VRSystem vr = true ->
  time - timeLastTick (CalCtx m) >= 5 / 100 ->
  state (CalCtx m) = CalibrationState.None \/
  state (CalCtx m) = CalibrationState.Editing ->
  exists m',
    CalibrationTick E vr time m = Some m'
    /\ state (CalCtx m') = state (CalCtx m)
    /\ samples m' = samples m
    /\ messages (CalCtx m') = messages (CalCtx m)
    /\ (validProfile (CalCtx m) = false -> InputEmulator m' = InputEmulator m)
    /\ (validProfile (CalCtx m) = true ->
        state (CalCtx m) = CalibrationState.Editing ->
        InputEmulator m' = ScanAndApplyProfile vr (CalCtx m) (InputEmulator m))
    /\ (validProfile (CalCtx m) = true ->
        state (CalCtx m) = CalibrationState.None ->
        (time - timeLastScan (CalCtx m) >= 25 / 10 ->
         InputEmulator m' = ScanAndApplyProfile vr (CalCtx m) (InputEmulator m)
         /\ timeLastScan (CalCtx m') = time)
        /\ (time - timeLastScan (CalCtx m) < 25 / 10 ->
            InputEmulator m' = InputEmulator m
            /\ timeLastScan (CalCtx m') = timeLastScan (CalCtx m))).
Proof.
  intros Hvr Htime Hstate.
  rewrite (tick_processed_R E vr time m Hvr Htime).
  unfold TickProcess. cbn [state set_devicePoses set_timeLastTick].
  set (ctx1 := set_devicePoses (set_timeLastTick (CalCtx m) time)
                 (GetDeviceToAbsoluteTrackingPose vr)).
  assert (Hext : forall x,
            ScanAndApplyProfile vr (set_wantedUpdateInterval ctx1 x) (InputEmulator m)
            = ScanAndApplyProfile vr (CalCtx m) (InputEmulator m))
    by (intros x; apply ScanAndApplyProfile_ext; reflexivity).
  destruct Hstate as [Hst | Hst]; rewrite Hst.
  - unfold TickNone. rewrite Hext.
    remember (ScanAndApplyProfile vr (CalCtx m) (InputEmulator m)) as scanned.
    cbn [validProfile set_wantedUpdateInterval set_devicePoses set_timeLastTick
         timeLastScan ctx1].
    destruct (validProfile (CalCtx m)) eqn:Hvalid; cbn [negb].
    + cbn [dleb dsub lit_2_5 R_Scalar].
      destruct (R_leb (25 / 10) (time - timeLastScan (CalCtx m))) eqn:Hscan.
      * apply R_leb_true in Hscan.
        eexists. split; [reflexivity|].
        cbn [CalCtx samples InputEmulator state messages timeLastScan
             set_timeLastScan set_wantedUpdateInterval set_devicePoses
             set_timeLastTick].
        repeat split; try assumption; try discriminate;
          try (intros; exfalso; lra).
      * apply R_leb_false in Hscan.
        eexists. split; [reflexivity|].
        cbn [CalCtx samples InputEmulator state messages timeLastScan
             set_timeLastScan set_wantedUpdateInterval set_devicePoses
             set_timeLastTick].
        repeat split; try assumption; try discriminate;
          try (intros; exfalso; lra).
    + eexists. split; [reflexivity|].
      cbn [CalCtx samples InputEmulator state messages timeLastScan
           set_timeLastScan set_wantedUpdateInterval set_devicePoses
           set_timeLastTick].
      repeat split; try assumption; try discriminate;
        try (intros; exfalso; lra).
  - unfold TickEditing. rewrite Hext.
    remember (ScanAndApplyProfile vr (CalCtx m) (InputEmulator m)) as scanned.
    cbn [validProfile set_wantedUpdateInterval set_devicePoses set_timeLastTick ctx1].
    destruct (validProfile (CalCtx m)) eqn:Hvalid; cbn [negb].
    + eexists. split; [reflexivity|].
      cbn [CalCtx samples InputEmulator state messages timeLastScan
           set_timeLastScan set_wantedUpdateInterval set_devicePoses
           set_timeLastTick].
      repeat split; try assumption; try discriminate.
    + eexists. split; [reflexivity|].
      cbn [CalCtx samples InputEmulator state messages timeLastScan
           set_timeLastScan set_wantedUpdateInterval set_devicePoses
           set_timeLastTick].
      repeat split; try assumption; try discriminate.
Qed.

(** X18: ticks that come without the runtime, or less than 0.05 s after
    the last processed tick (a clock that went back included), change
    nothing, however many there are. *)
Theorem run_of_skipped_ticks (E : Extern R) (ticks : list (VRSystem_t R * R))
    (m : Machine R) :
  Forall (fun tk => VRSystem (fst tk) = false
                    \/ snd tk - timeLastTick (CalCtx m) < 5 / 100) ticks ->
  run E ticks m = Some m.
Proof.
  induction 1 as [|[vr time] rest Hskip _ IH]; [reflexivity|].
  cbn [run fst snd] in *.
  assert (Htick : CalibrationTick E vr time m = Some m).
  { destruct Hskip as [Hno | Hnear].
    - now apply tick_without_runtime.
    - now apply tick_debounced_R. }
  rewrite Htick. exact IH.
Qed.

End IdleAndEditing.

(** ** A NaN on the tick clock *)

Section NaNClock.

Context {lm : libm}.





End NaNClock.

(** * More closed instances *)

Section MoreClosedInstances.

#[local] Existing Instance libm_still.

(** The reference is lost while sampling. *)
Lemma CollectSample_reference_lost :
  exists (ctx' : CalibrationContext float) s,
    CollectSample (ticked vr_lost 1%float (ctx_still CalibrationState.Rotation 1 2))
    = Some (ctx', s)
    /\ Sample_valid s = false
    /\ state ctx' = CalibrationState.None
    /\ messages ctx' =
       ("Reference device is not tracking" ++ LF ++ "Aborting calibration!" ++ LF)%string.
Proof.
  destruct (CollectSample_spec
              (ticked vr_lost 1%float (ctx_still CalibrationState.Rotation 1 2))
              in_array_1 in_array_2)
    as (ctx' & s & Hc & Hvalid & _ & Hlost).
  exists ctx', s. split; [exact Hc|]. split; [exact Hvalid|].
  rewrite (Hlost Hvalid). split; reflexivity.
Defined.

(** Ninety-nine samples are in the accumulator in [Translation]: the next
    tick completes the calibration. *)
Lemma translation_completes_after_99 :
  exists m' : Machine float,
    CalibrationTick Extern_still vr_tracked 1%float
      (machine_still CalibrationState.Translation 99) = Some m'
    /\ state (CalCtx m') = CalibrationState.None
    /\ samples m' = []
    /\ InputEmulator m' =
       [ setWorldFromDriverTranslationOffset 2 (mkHmdVector3d 0 0 0)%float ].
Proof.
  destruct (translation_completes_at_100 Extern_still vr_tracked 1%float
              (machine_still CalibrationState.Translation 99))
    as (m' & Htick & Hfull & _).
  - reflexivity.
  - reflexivity.
  - reflexivity.
  - split; [exact in_array_1 | reflexivity].
  - split; [exact in_array_2 | reflexivity].
  - destruct (Hfull eq_refl) as (Hstate & _ & Hsamples & Hemu).
    exists m'. repeat split; assumption.
Defined.

(** The tick that completes the rotation phase moves along the table. *)
Lemma tick_transitions_rotation_completes :
  exists m' : Machine float,
    CalibrationTick Extern_still vr_tracked 1%float
      (machine_still CalibrationState.Rotation 99) = Some m'
    /\ tick_may_move CalibrationState.Rotation (state (CalCtx m')) = true.
Proof.
  destruct (CalibrationTick Extern_still vr_tracked 1%float
              (machine_still CalibrationState.Rotation 99)) as [m'|] eqn:Htick.
  - exists m'. split; [reflexivity|].
    exact (proj1 (tick_transitions Extern_still vr_tracked 1%float
                    (machine_still CalibrationState.Rotation 99) m' Htick)).
  - vm_compute in Htick. discriminate.
Defined.

(** The machine reached through [Begin] and one sampling tick holds fewer
    than 100 samples. *)
Lemma accumulator_below_100_after_one_sample :
  exists m : Machine float,
    run Extern_still [(vr_tracked, 1%float); (vr_tracked, 2%float)]
      (start (machine_still CalibrationState.None 0)) = Some m
    /\ (List.length (samples m) < 100)%nat.
Proof.
  eexists. split; [vm_compute; reflexivity|].
  apply (accumulator_below_100 Extern_still).
  apply (run_reachable Extern_still
           [(vr_tracked, 1%float); (vr_tracked, 2%float)]
           (start (machine_still CalibrationState.None 0))).
  - apply (reachable_step (reachable_init Extern_still
             (ctx_still CalibrationState.None 1 2))).
    apply step_start.
  - vm_compute. reflexivity.
Defined.

Lemma still_ticks_tracking_both (first count : nat) :
  Forall (tracking_both 1 2) (still_ticks first count).
Proof.
  apply Forall_forall. intros tk Hin. unfold still_ticks in Hin.
  apply in_map_iff in Hin. destruct Hin as (i & <- & _).
  split; [reflexivity|].
  split; (split; [exact in_array_1 || exact in_array_2 | reflexivity]).
Qed.

(** A start request and 201 ticks of the still scene, one second apart. *)
Lemma calibration_run_on_still_scene :
  exists m' : Machine float,
    run Extern_still
      ((vr_tracked, 1%float) :: still_ticks 2 100 ++ still_ticks 102 100)
      (start (machine_still CalibrationState.None 0)) = Some m'
    /\ state (CalCtx m') = CalibrationState.None
    /\ samples m' = []
    /\ List.length (InputEmulator m') = 6%nat.
Proof.
  destruct (calibration_run_completes Extern_still
              (machine_still CalibrationState.None 0)
              (vr_tracked, 1%float) (still_ticks 2 100) (still_ticks 102 100))
    as (m' & Hrun & Hstate & Hsamples & Hemu).
  - reflexivity.
  - reflexivity.
  - reflexivity.
  - constructor.
    + split; [reflexivity|].
      split; (split; [exact in_array_1 || exact in_array_2 | reflexivity]).
    + apply Forall_app. split; apply still_ticks_tracking_both.
  - vm_compute. repeat split.
  - exists m'. repeat split; try assumption.
    rewrite Hemu. reflexivity.
Defined.


End MoreClosedInstances.

Section MoreClosedInstancesR.

Local Open Scope R_scope.

(** Two samples of the still scene: no rotation between them. *)
Lemma delta_sample_of_still_samples :
  DSample_valid (DeltaRotationSamples (@sample_still R _) sample_still) = false.
Proof.
  apply delta_sample_without_rotation. left. reflexivity.
Defined.

(** An idle machine without a valid profile: the tick sends nothing. *)
Lemma profile_reapplication_without_profile :
  exists m' : Machine R,
    CalibrationTick Extern_still vr_tracked 1 (machine_still CalibrationState.None 0)
    = Some m'
    /\ state (CalCtx m') = CalibrationState.None
    /\ InputEmulator m' = [].
Proof.
  destruct (profile_reapplication Extern_still vr_tracked 1
              (machine_still CalibrationState.None 0))
    as (m' & Htick & Hstate & _ & _ & Hnone & _).
  - reflexivity.
  - cbn. lra.
  - left. reflexivity.
  - exists m'. split; [exact Htick|]. split; [exact Hstate|].
    exact (Hnone eq_refl).
Defined.

(** A tick 10ms after the last one and a tick from a clock that went back. *)
Lemma run_of_two_skipped_ticks :
  run Extern_still [(vr_tracked, 1 / 100); (vr_tracked, -1)]
    (machine_still CalibrationState.None 0)
  = Some (machine_still CalibrationState.None 0).
Proof.
  apply run_of_skipped_ticks.
  apply Forall_cons; [right; cbn; lra|].
  apply Forall_cons; [right; cbn; lra|].
  apply Forall_nil.
Defined.

End MoreClosedInstancesR.
